(** * Signaling server of video-call: room table, admission and routing

    Shallow embedding of the group-call signaling server
    (src/unnamed/part_000, the last server variant, lines 331-553).

    - A JavaScript [Map<string, V>] is an association list kept in insertion
      order ([JsMap]); [set] on a present key overwrites in place, as
      [Map.prototype.set] does.
    - socket.io is modelled by [io.sockets.sockets]: every connected socket id
      is mapped to its set of joined rooms ([socket.rooms]), which contains
      the socket's own id from the moment it connects.  [io.to(n)] reaches
      every connected socket whose room set contains [n]; [socket.to(n)] is
      the same without the sending socket.
    - Every handler returns the new server state together with the list of
      emitted messages, each tagged with the receiving socket id, in emission
      order. *)

From Stdlib Require Import String List Bool Arith Lia Relations.
Import ListNotations.
Local Open Scope string_scope.
Local Open Scope list_scope.

(** ** JavaScript [Map] with string keys *)
Module JsMap.

Definition t (V : Type) := list (string * V).

Section Ops.
Context {V : Type}.

(** [m.get(k)] *)
Fixpoint get (m : t V) (k : string) : option V :=
  match m with
  | [] => None
  | (k', v) :: rest => if String.eqb k' k then Some v else get rest k
  end.

(** [m.has(k)] *)
Definition has (m : t V) (k : string) : bool :=
  match get m k with Some _ => true | None => false end.

(** [m.set(k, v)]: overwrite in place, or append a new entry *)
Fixpoint set (m : t V) (k : string) (v : V) : t V :=
  match m with
  | [] => [(k, v)]
  | (k', v') :: rest =>
      if String.eqb k' k then (k, v) :: rest else (k', v') :: set rest k v
  end.

(** [m.delete(k)]: remove the entry with key [k] *)
Definition delete (m : t V) (k : string) : t V :=
  filter (fun kv => negb (String.eqb (fst kv) k)) m.

(** [m.size] *)
Definition size (m : t V) : nat := length m.

Definition keys (m : t V) : list string := map fst m.

End Ops.
End JsMap.

Import JsMap (get, has, set, delete, size, keys).

(** ** Data model (types of the server) *)

Definition SessionId := string.
Definition RoomId := string.

(** [role: "host" | "guest"] *)
Inductive Role := host | guest.

Definition is_host (r : Role) : bool :=
  match r with host => true | guest => false end.

(** [MemberState]; [handRaised?] is optional, [sharing] is not in the
    server's type but is carried at run time by the spread of a partial. *)
Record MemberState := {
  name : string;
  muted : bool;
  videoOn : bool;
  handRaised : option bool;
  sharing : option bool;
  role : Role
}.

(** [Partial<MemberState>] as received from a client: any subset of the fields. *)
Record PartialState := {
  p_name : option string;
  p_muted : option bool;
  p_videoOn : option bool;
  p_handRaised : option bool;
  p_sharing : option bool;
  p_role : option Role
}.

Definition opt_over {A} (o : option A) (d : A) : A :=
  match o with Some a => a | None => d end.

(** [{ ...current, ...partial }] *)
Definition merge (cur : MemberState) (p : PartialState) : MemberState := {|
  name := opt_over (p_name p) (name cur);
  muted := opt_over (p_muted p) (muted cur);
  videoOn := opt_over (p_videoOn p) (videoOn cur);
  handRaised := match p_handRaised p with Some b => Some b | None => handRaised cur end;
  sharing := match p_sharing p with Some b => Some b | None => sharing cur end;
  role := opt_over (p_role p) (role cur)
|}.

(** [RoomInfo]; a waiting entry [{ name }] is kept as its name. *)
Record RoomInfo := {
  members : JsMap.t MemberState;
  locked : bool;
  waiting : JsMap.t string
}.

(** The process state: [rooms] and socket.io's [io.sockets.sockets] with each
    socket's [socket.rooms]. *)
Record Server := {
  rooms : JsMap.t RoomInfo;
  sockets : JsMap.t (list string)
}.

Definition init : Server := {| rooms := []; sockets := [] |}.

(** Signal payloads: [type] and an opaque [sdp]/[candidate] body. *)
Inductive SigType := offer | answer | candidate.

Record SignalPayload := {
  sp_roomId : RoomId;
  sp_type : SigType;
  sp_body : string;
  sp_to : SessionId
}.

(** Server-to-client messages. *)
Inductive S2C :=
| m_error (reason : string)
| m_waiting
| m_waiting_list (list : list (SessionId * string))
| m_joined (selfId : SessionId) (selfRole : Role) (peers : list (SessionId * MemberState))
| m_peer_joined (id : SessionId) (st : MemberState)
| m_peer_left (id : SessionId)
| m_signal (payload : SignalPayload) (from : SessionId)
| m_state_update (id : SessionId) (partial : PartialState)
| m_reaction (from : SessionId) (emoji : string)
| m_lock_state (lk : bool)
| m_denied.

Definition Out := list (SessionId * S2C).

(** Client-to-server events handled by the core.  For [reaction], [None]
    stands for an [emoji] that is not a string. *)
Inductive Event :=
| ev_join (roomId : RoomId) (nm : option string)
| ev_signal (p : SignalPayload)
| ev_leave (roomId : RoomId)
| ev_disconnecting
| ev_state_update (roomId : RoomId) (partial : PartialState)
| ev_rename (roomId : RoomId) (nm : option string)
| ev_reaction (roomId : RoomId) (emoji : option string) (to : option SessionId)
| ev_lock_room (roomId : RoomId) (lk : bool)
| ev_admit (roomId : RoomId) (id : SessionId)
| ev_deny (roomId : RoomId) (id : SessionId).

(** ** socket.io rooms *)

Definition in_room (n : string) (rs : list string) : bool :=
  existsb (String.eqb n) rs.

(** [io.to(n).emit(m)] *)
Definition io_to (sk : JsMap.t (list string)) (n : string) (m : S2C) : Out :=
  map (fun p => (fst p, m)) (filter (fun p => in_room n (snd p)) sk).

(** [socket.to(n).emit(m)] (also [socket.broadcast.to(n)]) *)
Definition socket_to (sk : JsMap.t (list string)) (self : SessionId) (n : string)
    (m : S2C) : Out :=
  map (fun p => (fst p, m))
    (filter (fun p => negb (String.eqb (fst p) self) && in_room n (snd p)) sk).

(** [socket.join(n)]: add [n] to the socket's room set *)
Definition sock_join (sk : JsMap.t (list string)) (self : SessionId) (n : string) :=
  match get sk self with
  | Some rs => set sk self (if in_room n rs then rs else rs ++ [n])
  | None => sk
  end.

(** [socket.leave(n)] *)
Definition sock_leave (sk : JsMap.t (list string)) (self : SessionId) (n : string) :=
  match get sk self with
  | Some rs => set sk self (filter (fun x => negb (String.eqb x n)) rs)
  | None => sk
  end.

(** ** Helpers of the handlers *)

(** [(name && String(name).slice(0, 64)) || fallback] *)
Definition safe_name (nm : option string) (fallback : string) : string :=
  let s := match nm with
           | Some n => if String.eqb n "" then "" else substring 0 64 n
           | None => ""
           end in
  if String.eqb s "" then fallback else s.

Definition new_room : RoomInfo := {| members := []; locked := false; waiting := [] |}.

(** [rooms.get(roomId) || { members: new Map(), locked: false, waiting: new Map() }] *)
Definition room_or_new (s : Server) (roomId : RoomId) : RoomInfo :=
  match get (rooms s) roomId with Some r => r | None => new_room end.

Definition with_members (room : RoomInfo) (ms : JsMap.t MemberState) : RoomInfo :=
  {| members := ms; locked := locked room; waiting := waiting room |}.

Definition with_waiting (room : RoomInfo) (w : JsMap.t string) : RoomInfo :=
  {| members := members room; locked := locked room; waiting := w |}.

Definition with_locked (room : RoomInfo) (lk : bool) : RoomInfo :=
  {| members := members room; locked := lk; waiting := waiting room |}.

(** [{ name, muted: false, videoOn: true, handRaised: false, role }] *)
Definition fresh_state (nm : string) (r : Role) : MemberState :=
  {| name := nm; muted := false; videoOn := true; handRaised := Some false;
     sharing := None; role := r |}.

(** [[...room.members.entries()].filter(([id]) => id !== self)] *)
Definition peers_of (ms : JsMap.t MemberState) (self : SessionId) :=
  filter (fun p => negb (String.eqb (fst p) self)) ms.

(** [room.members.delete(id); if (room.members.size === 0) rooms.delete(roomId)] *)
Definition drop_member (self : SessionId) (roomId : RoomId) (rs : JsMap.t RoomInfo) :=
  match get rs roomId with
  | Some room =>
      let ms := delete (members room) self in
      if Nat.eqb (size ms) 0 then delete rs roomId else set rs roomId (with_members room ms)
  | None => rs
  end.

(** [for (const [rid, room] of rooms.entries())
       if (room.waiting?.delete(self)) io.to(rid).emit("waiting-list", ...)] *)
Fixpoint disc_waiting (self : SessionId) (sk : JsMap.t (list string))
    (rs : JsMap.t RoomInfo) : JsMap.t RoomInfo * Out :=
  match rs with
  | [] => ([], [])
  | (rid, room) :: rest =>
      let '(rest', out) := disc_waiting self sk rest in
      if has (waiting room) self then
        let room' := with_waiting room (delete (waiting room) self) in
        ((rid, room') :: rest', io_to sk rid (m_waiting_list (waiting room')) ++ out)
      else ((rid, room) :: rest', out)
  end.

(** [for (const roomId of socket.rooms) { if (roomId === socket.id) continue;
       socket.to(roomId).emit("peer-left", ...); ...remove from members... }] *)
Fixpoint disc_rooms (self : SessionId) (sk : JsMap.t (list string))
    (names : list string) (rs : JsMap.t RoomInfo) : JsMap.t RoomInfo * Out :=
  match names with
  | [] => (rs, [])
  | n :: ns =>
      if String.eqb n self then disc_rooms self sk ns rs
      else
        let out := socket_to sk self n (m_peer_left self) in
        let '(rs', out') := disc_rooms self sk ns (drop_member self n rs) in
        (rs', out ++ out')
  end.

(** ** The event handlers of [io.on("connection", socket => ...)] *)
Section Handlers.

(** [MAX_ROOM_SIZE], read from the environment (default 10). *)
Variable MAX_ROOM_SIZE : nat.

(** [socket.on("join", ...)] *)
Definition on_join (self : SessionId) (roomId : RoomId) (nm : option string)
    (s : Server) : Server * Out :=
  let room := room_or_new s roomId in
  if Nat.leb MAX_ROOM_SIZE (size (members room)) then
    (s, [(self, m_error "room-full")])
  else
    let safeName := safe_name nm (String.append "Guest-" (substring 0 6 self)) in
    if locked room && Nat.ltb 0 (size (members room)) then
      let room' := with_waiting room (set (waiting room) self safeName) in
      let s' := {| rooms := set (rooms s) roomId room'; sockets := sockets s |} in
      (s', [(self, m_waiting)]
             ++ io_to (sockets s') roomId (m_waiting_list (waiting room')))
    else
      let r := if Nat.eqb (size (members room)) 0 then host else guest in
      let st := fresh_state safeName r in
      let room' := with_members room (set (members room) self st) in
      let sk := sock_join (sockets s) self roomId in
      let s' := {| rooms := set (rooms s) roomId room'; sockets := sk |} in
      (s', [(self, m_joined self r (peers_of (members room') self))]
             ++ socket_to sk self roomId (m_peer_joined self st)).

(** [socket.on("signal", ...)]: [io.to(to).emit("signal", { ...payload, from })] *)
Definition on_signal (self : SessionId) (p : SignalPayload) (s : Server) : Server * Out :=
  match get (rooms s) (sp_roomId p) with
  | None => (s, [])
  | Some room =>
      if negb (has (members room) (sp_to p)) then (s, [])
      else (s, io_to (sockets s) (sp_to p) (m_signal p self))
  end.

(** [socket.on("leave", ...)] *)
Definition on_leave (self : SessionId) (roomId : RoomId) (s : Server) : Server * Out :=
  let sk := sock_leave (sockets s) self roomId in
  let out := socket_to sk self roomId (m_peer_left self) in
  ({| rooms := drop_member self roomId (rooms s); sockets := sk |}, out).

(** [socket.on("disconnecting", ...)]; afterwards socket.io removes the
    socket from [io.sockets.sockets] (and so from all its rooms). *)
Definition on_disconnecting (self : SessionId) (s : Server) : Server * Out :=
  let sk := sockets s in
  let names := match get sk self with Some rs => rs | None => [] end in
  let '(rs1, out1) := disc_rooms self sk names (rooms s) in
  let '(rs2, out2) := disc_waiting self sk rs1 in
  ({| rooms := rs2; sockets := delete sk self |}, out1 ++ out2).

(** [socket.on("state-update", ...)] *)
Definition on_state_update (self : SessionId) (roomId : RoomId) (partial : PartialState)
    (s : Server) : Server * Out :=
  match get (rooms s) roomId with
  | None => (s, [])
  | Some room =>
      match get (members room) self with
      | None => (s, [])
      | Some current =>
          let updated := merge current partial in
          let room' := with_members room (set (members room) self updated) in
          ({| rooms := set (rooms s) roomId room'; sockets := sockets s |},
           socket_to (sockets s) self roomId (m_state_update self partial))
      end
  end.

Definition name_only (n : string) : PartialState :=
  {| p_name := Some n; p_muted := None; p_videoOn := None; p_handRaised := None;
     p_sharing := None; p_role := None |}.

(** [socket.on("rename", ...)] *)
Definition on_rename (self : SessionId) (roomId : RoomId) (nm : option string)
    (s : Server) : Server * Out :=
  match get (rooms s) roomId with
  | None => (s, [])
  | Some room =>
      match get (members room) self with
      | None => (s, [])
      | Some current =>
          let safeName := safe_name nm (name current) in
          let updated := {| name := safeName; muted := muted current;
                            videoOn := videoOn current; handRaised := handRaised current;
                            sharing := sharing current; role := role current |} in
          let room' := with_members room (set (members room) self updated) in
          ({| rooms := set (rooms s) roomId room'; sockets := sockets s |},
           io_to (sockets s) roomId (m_state_update self (name_only safeName)))
      end
  end.

(** [socket.on("reaction", ...)]; the [to] field is not used. *)
Definition on_reaction (self : SessionId) (roomId : RoomId) (emoji : option string)
    (s : Server) : Server * Out :=
  match get (rooms s) roomId, emoji with
  | Some _, Some e =>
      if String.eqb e "" then (s, [])
      else (s, io_to (sockets s) roomId (m_reaction self e))
  | _, _ => (s, [])
  end.

Definition caller_is_host (room : RoomInfo) (self : SessionId) : bool :=
  match get (members room) self with
  | Some current => is_host (role current)
  | None => false
  end.

(** [socket.on("lock-room", ...)] *)
Definition on_lock_room (self : SessionId) (roomId : RoomId) (lk : bool)
    (s : Server) : Server * Out :=
  match get (rooms s) roomId with
  | None => (s, [])
  | Some room =>
      if negb (caller_is_host room self) then (s, [])
      else
        let room' := with_locked room lk in
        ({| rooms := set (rooms s) roomId room'; sockets := sockets s |},
         io_to (sockets s) roomId (m_lock_state lk))
  end.

(** [socket.on("admit", ...)] *)
Definition on_admit (self : SessionId) (roomId : RoomId) (id : SessionId)
    (s : Server) : Server * Out :=
  match get (rooms s) roomId with
  | None => (s, [])
  | Some room =>
      if negb (caller_is_host room self) then (s, [])
      else
        match get (waiting room) id with
        | None => (s, [])
        | Some wname =>
            match get (sockets s) id with
            | None => (s, [])
            | Some _ =>
                let st := fresh_state wname guest in
                let room' := {| members := set (members room) id st;
                                locked := locked room;
                                waiting := delete (waiting room) id |} in
                let sk := sock_join (sockets s) id roomId in
                ({| rooms := set (rooms s) roomId room'; sockets := sk |},
                 [(id, m_joined id guest (peers_of (members room') id))]
                   ++ socket_to sk id roomId (m_peer_joined id st)
                   ++ io_to sk roomId (m_waiting_list (waiting room')))
            end
        end
  end.

(** [socket.on("deny", ...)] *)
Definition on_deny (self : SessionId) (roomId : RoomId) (id : SessionId)
    (s : Server) : Server * Out :=
  match get (rooms s) roomId with
  | None => (s, [])
  | Some room =>
      if negb (caller_is_host room self) then (s, [])
      else if has (waiting room) id then
        let room' := with_waiting room (delete (waiting room) id) in
        ({| rooms := set (rooms s) roomId room'; sockets := sockets s |},
         io_to (sockets s) roomId (m_waiting_list (waiting room'))
           ++ io_to (sockets s) id m_denied)
      else (s, [])
  end.

Definition handle (self : SessionId) (ev : Event) (s : Server) : Server * Out :=
  match ev with
  | ev_join r nm => on_join self r nm s
  | ev_signal p => on_signal self p s
  | ev_leave r => on_leave self r s
  | ev_disconnecting => on_disconnecting self s
  | ev_state_update r p => on_state_update self r p s
  | ev_rename r nm => on_rename self r nm s
  | ev_reaction r e _ => on_reaction self r e s
  | ev_lock_room r lk => on_lock_room self r lk s
  | ev_admit r id => on_admit self r id s
  | ev_deny r id => on_deny self r id s
  end.

(** A new connection: socket.io draws an id that occurs nowhere in the
    state, and the socket starts in its own room. *)
Definition fresh_b (s : Server) (id : SessionId) : bool :=
  negb (has (sockets s) id)
  && forallb (fun p => negb (has (members (snd p)) id) && negb (has (waiting (snd p)) id))
       (rooms s).

Definition connect (s : Server) (id : SessionId) : Server :=
  {| rooms := rooms s; sockets := set (sockets s) id [id] |}.

(** Transitions of the process; [ok] selects the admitted client events. *)
Inductive step (ok : Event -> bool) : Server -> Server -> Prop :=
| step_connect s id :
    fresh_b s id = true -> step ok s (connect s id)
| step_event s self ev :
    has (sockets s) self = true -> ok ev = true ->
    step ok s (fst (handle self ev s)).

Inductive reachable (ok : Event -> bool) : Server -> Prop :=
| reach_init : reachable ok init
| reach_step s s' : reachable ok s -> step ok s s' -> reachable ok s'.

(** Concrete runs: a list of connections and client events. *)
Inductive Action :=
| a_connect (id : SessionId)
| a_event (self : SessionId) (ev : Event).

Definition act (a : Action) (s : Server) : Server * Out :=
  match a with
  | a_connect id => if fresh_b s id then (connect s id, []) else (s, [])
  | a_event self ev => if has (sockets s) self then handle self ev s else (s, [])
  end.

Fixpoint run (acts : list Action) (s : Server) : Server * Out :=
  match acts with
  | [] => (s, [])
  | a :: rest =>
      let '(s1, o1) := act a s in
      let '(s2, o2) := run rest s1 in
      (s2, o1 ++ o2)
  end.

End Handlers.

Definition all_events (_ : Event) : bool := true.

(** Observations on a state. *)
Definition member_of (s : Server) (r : RoomId) (x : SessionId) : bool :=
  match get (rooms s) r with Some room => has (members room) x | None => false end.

Definition waiting_in (s : Server) (r : RoomId) (x : SessionId) : bool :=
  match get (rooms s) r with Some room => has (waiting room) x | None => false end.

Definition role_of (s : Server) (r : RoomId) (x : SessionId) : option Role :=
  match get (rooms s) r with
  | Some room => option_map role (get (members room) x)
  | None => None
  end.

Definition count_hosts (ms : JsMap.t MemberState) : nat :=
  length (filter (fun p => is_host (role (snd p))) ms).

(** [socket.rooms.has(n)] for a connected socket. *)
Definition joined (sk : JsMap.t (list string)) (x : SessionId) (n : string) : bool :=
  match get sk x with Some rs => in_room n rs | None => false end.

(** Client events whose [partial] carries no [role] field. *)
Definition no_role_update (ev : Event) : bool :=
  match ev with
  | ev_state_update _ p => match p_role p with Some _ => false | None => true end
  | _ => true
  end.

Definition is_admit (a : Action) : bool :=
  match a with a_event _ (ev_admit _ _) => true | _ => false end.

(** ** Changes a single client event makes to one entry of [rooms] *)

Definition opt_room (o : option RoomInfo) : RoomInfo :=
  match o with Some r => r | None => new_room end.

Definition join_room (room : RoomInfo) (x : SessionId) (n : string) : RoomInfo :=
  with_members room
    (set (members room) x
       (fresh_state n (if Nat.eqb (size (members room)) 0 then host else guest))).

Definition admit_room (room : RoomInfo) (x : SessionId) (n : string) : RoomInfo :=
  {| members := set (members room) x (fresh_state n guest);
     locked := locked room;
     waiting := delete (waiting room) x |}.

(** [free] allows a member update that changes the member's role. *)
Inductive room_change (free : bool) : option RoomInfo -> option RoomInfo -> Prop :=
| rc_wait room x n :
    0 < size (members room) ->
    room_change free (Some room) (Some (with_waiting room (set (waiting room) x n)))
| rc_join o x n :
    room_change free o (Some (join_room (opt_room o) x n))
| rc_drop room x :
    size (delete (members room) x) <> 0 ->
    room_change free (Some room) (Some (with_members room (delete (members room) x)))
| rc_remove room x :
    size (delete (members room) x) = 0 ->
    room_change free (Some room) None
| rc_update room x cur v :
    get (members room) x = Some cur ->
    (role v = role cur \/ free = true) ->
    room_change free (Some room) (Some (with_members room (set (members room) x v)))
| rc_lock room lk :
    room_change free (Some room) (Some (with_locked room lk))
| rc_admit room x n :
    room_change free (Some room) (Some (admit_room room x n))
| rc_unwait room x :
    room_change free (Some room) (Some (with_waiting room (delete (waiting room) x))).

Definition changes (free : bool) := clos_refl_trans _ (room_change free).

Definition action_ok (ok : Event -> bool) (a : Action) : bool :=
  match a with a_connect _ => true | a_event _ ev => ok ev end.

(** ** Concrete runs *)

(** The scenario of the spec, section 8. *)
Definition scenario : list Action :=
  [a_connect "A"; a_connect "B"; a_connect "C";
   a_event "A" (ev_join "R" (Some "alice")); a_event "B" (ev_join "R" None);
   a_event "A" (ev_lock_room "R" true); a_event "C" (ev_join "R" (Some "carol"));
   a_event "A" (ev_admit "R" "C"); a_event "B" ev_disconnecting].

(** Two sessions wait in a locked room of capacity 2; the host admits both. *)
Definition trace_admit_over : list Action :=
  [a_connect "A"; a_connect "B"; a_connect "C";
   a_event "A" (ev_join "R" None); a_event "A" (ev_lock_room "R" true);
   a_event "B" (ev_join "R" None); a_event "C" (ev_join "R" None);
   a_event "A" (ev_admit "R" "B"); a_event "A" (ev_admit "R" "C")].

(** The host leaves a room that still has a guest. *)
Definition trace_host_leaves : list Action :=
  [a_connect "A"; a_connect "B";
   a_event "A" (ev_join "R" None); a_event "B" (ev_join "R" None);
   a_event "A" (ev_leave "R")].

(** The host re-joins its own room after locking it. *)
Definition trace_rejoin_locked : list Action :=
  [a_connect "A"; a_event "A" (ev_join "R" None);
   a_event "A" (ev_lock_room "R" true); a_event "A" (ev_join "R" None)].

(** A host alone in the room it has locked. *)
Definition trace_locked_alone : Server :=
  fst (run 10 [a_connect "A"; a_event "A" (ev_join "R" None);
               a_event "A" (ev_lock_room "R" true)] init).

(** One session joins two rooms. *)
Definition trace_two_rooms : list Action :=
  [a_connect "A"; a_event "A" (ev_join "R1" None); a_event "A" (ev_join "R2" None)].

(** B is queued in the waiting room of R. *)
Definition trace_queued : list Action :=
  [a_connect "A"; a_connect "B";
   a_event "A" (ev_join "R" None); a_event "A" (ev_lock_room "R" true);
   a_event "B" (ev_join "R" None)].

(** The host unlocks and the waiting session sends join again. *)
Definition trace_unlock_rejoin : list Action :=
  [a_event "A" (ev_lock_room "R" false); a_event "B" (ev_join "R" None)].

(** C joins a room whose id is B's session id. *)
Definition trace_shadow_room : list Action :=
  [a_connect "A"; a_connect "B"; a_connect "C";
   a_event "A" (ev_join "R" None); a_event "B" (ev_join "R" None);
   a_event "C" (ev_join "B" None)].

Definition sig_to_B : SignalPayload :=
  {| sp_roomId := "R"; sp_type := offer; sp_body := "v=0"; sp_to := "B" |}.

Definition two_members : list Action :=
  [a_connect "A"; a_connect "B";
   a_event "A" (ev_join "R" None); a_event "B" (ev_join "R" None)].

(** A room whose host has locked it. *)
Definition trace_locked_room : list Action :=
  [a_connect "A"; a_connect "B";
   a_event "A" (ev_join "R" None); a_event "A" (ev_lock_room "R" true)].

(** One session waits in two locked rooms. *)
Definition trace_wait_two : list Action :=
  [a_connect "H"; a_connect "A";
   a_event "H" (ev_join "R1" None); a_event "H" (ev_lock_room "R1" true);
   a_event "H" (ev_join "R2" None); a_event "H" (ev_lock_room "R2" true);
   a_event "A" (ev_join "R1" None); a_event "A" (ev_join "R2" None)].

Definition promote : PartialState :=
  {| p_name := Some "Boss"; p_muted := None; p_videoOn := None; p_handRaised := None;
     p_sharing := None; p_role := Some host |}.

(** Every member of a room that is still connected has joined the
    socket.io room of that name. *)
Definition members_joined (s : Server) : Prop :=
  forall r room x, get (rooms s) r = Some room -> has (members room) x = true ->
  has (sockets s) x = true -> joined (sockets s) x r = true.

(** States reached by some of the runs. *)
Definition after_scenario : Server := fst (run 10 scenario init).

Definition locked_full : Server := fst (run 1 trace_locked_room init).

Definition one_conn : Server := connect init "A".

Definition locked_room : Server := fst (run 10 trace_locked_room init).

Definition unlocked_again : Server :=
  fst (run 10 (trace_queued ++ [a_event "A" (ev_lock_room "R" false)]) init).

(** ** Messages of other types *)

(** [io.to(n).emit(m)] for a message of any type *)
Definition io_to_m {M : Type} (sk : JsMap.t (list string)) (n : string) (m : M)
    : list (SessionId * M) :=
  map (fun p => (fst p, m)) (filter (fun p => in_room n (snd p)) sk).

(** [socket.to(n).emit(m)] for a message of any type *)
Definition socket_to_m {M : Type} (sk : JsMap.t (list string)) (self : SessionId)
    (n : string) (m : M) : list (SessionId * M) :=
  map (fun p => (fst p, m))
    (filter (fun p => negb (String.eqb (fst p) self) && in_room n (snd p)) sk).

(** ** Chat *)

(** White space and line terminators of [String.prototype.trim] among the
    code units U+0000..U+00FF: TAB, LF, VT, FF, CR, SPACE and NO-BREAK SPACE. *)
Definition js_space (c : Ascii.ascii) : bool :=
  existsb (Nat.eqb (Ascii.nat_of_ascii c)) [9; 10; 11; 12; 13; 32; 160].

Fixpoint trim_start (s : string) : string :=
  match s with
  | EmptyString => EmptyString
  | String c r => if js_space c then trim_start r else s
  end.

Fixpoint trim_end (s : string) : string :=
  match s with
  | EmptyString => EmptyString
  | String c r =>
      match trim_end r with
      | EmptyString => if js_space c then EmptyString else String c EmptyString
      | r' => String c r'
      end
  end.

(** [s.trim()] *)
Definition trim (s : string) : string := trim_end (trim_start s).

Fixpoint all_space (s : string) : bool :=
  match s with
  | EmptyString => true
  | String c r => js_space c && all_space r
  end.

(** The chat payload [{ from, text, ts }]. *)
Record ChatMsg := {
  c_from : SessionId;
  c_text : string;
  c_ts : nat
}.

(** [socket.on("chat", ...)] of the server; [text] is [None] when it is not
    a string, [now] is [Date.now()]. *)
Definition on_chat (self : SessionId) (roomId : RoomId) (text : option string)
    (to : option SessionId) (now : nat) (s : Server)
    : Server * list (SessionId * ChatMsg) :=
  match get (rooms s) roomId, text with
  | Some room, Some t =>
      let trimmed := trim t in
      if String.eqb trimmed "" then (s, [])
      else
        let payload := {| c_from := self; c_text := substring 0 2000 trimmed; c_ts := now |} in
        match to with
        | Some x =>
            if negb (String.eqb x "") && has (members room) x
            then (s, io_to_m (sockets s) x payload)
            else (s, socket_to_m (sockets s) self roomId payload)
        | None => (s, socket_to_m (sockets s) self roomId payload)
        end
  | _, _ => (s, [])
  end.

(** [arr.slice(-k)] *)
Definition slice_last {A : Type} (k : nat) (l : list A) : list A :=
  skipn (length l - k) l.

(** The client's chat list update [(prev) => [...prev, m].slice(-200)]
    (src/unnamed/part_001), used for received and for sent messages. *)
Definition push_message (prev : list ChatMsg) (m : ChatMsg) : list ChatMsg :=
  slice_last 200 (prev ++ [m]).

(** The client's [sendChat]: the text emitted with [chat] (none when the
    trimmed input is empty) and the new message list. *)
Definition send_chat (selfId : SessionId) (chatInput : string) (now : nat)
    (messages : list ChatMsg) : option (string * list ChatMsg) :=
  let text := trim chatInput in
  if String.eqb text "" then None
  else
    let selfMsg := {| c_from := if String.eqb selfId "" then "self" else selfId;
                      c_text := text; c_ts := now |} in
    Some (text, push_message messages selfMsg).

(** ** Earlier server variants of the same file *)

(** The group-call server without a waiting room
    (src/unnamed/part_000, lines 1-146). *)
Module V1.

Record RoomInfo := { members : JsMap.t MemberState }.

Record Server := {
  rooms : JsMap.t RoomInfo;
  sockets : JsMap.t (list string)
}.

Definition init : Server := {| rooms := []; sockets := [] |}.

Inductive S2C :=
| m_error (reason : string)
| m_joined (selfId : SessionId) (peers : list (SessionId * MemberState))
| m_peer_joined (id : SessionId) (st : MemberState)
| m_peer_left (id : SessionId)
| m_signal (payload : SignalPayload) (from : SessionId)
| m_state_update (id : SessionId) (partial : PartialState)
| m_reaction (from : SessionId) (emoji : string).

Definition Out := list (SessionId * S2C).

Inductive Event :=
| ev_join (roomId : RoomId) (nm : option string)
| ev_signal (p : SignalPayload)
| ev_leave (roomId : RoomId)
| ev_disconnecting
| ev_state_update (roomId : RoomId) (partial : PartialState)
| ev_rename (roomId : RoomId) (nm : option string)
| ev_reaction (roomId : RoomId) (emoji : option string) (to : option SessionId).

(** [rooms.get(roomId) || { members: new Map() }] *)
Definition room_or_new (s : Server) (roomId : RoomId) : RoomInfo :=
  match get (rooms s) roomId with Some r => r | None => {| members := [] |} end.

Definition drop_member (self : SessionId) (roomId : RoomId) (rs : JsMap.t RoomInfo) :=
  match get rs roomId with
  | Some room =>
      let ms := delete (members room) self in
      if Nat.eqb (size ms) 0 then delete rs roomId else set rs roomId {| members := ms |}
  | None => rs
  end.

Fixpoint disc_rooms (self : SessionId) (sk : JsMap.t (list string))
    (names : list string) (rs : JsMap.t RoomInfo) : JsMap.t RoomInfo * Out :=
  match names with
  | [] => (rs, [])
  | n :: ns =>
      if String.eqb n self then disc_rooms self sk ns rs
      else
        let out := socket_to_m sk self n (m_peer_left self) in
        let '(rs', out') := disc_rooms self sk ns (drop_member self n rs) in
        (rs', out ++ out')
  end.

Section Handlers.

Variable MAX_ROOM_SIZE : nat.

Definition on_join (self : SessionId) (roomId : RoomId) (nm : option string)
    (s : Server) : Server * Out :=
  let room := room_or_new s roomId in
  if Nat.leb MAX_ROOM_SIZE (size (members room)) then
    (s, [(self, m_error "room-full")])
  else
    let r := if Nat.eqb (size (members room)) 0 then host else guest in
    let safeName := safe_name nm (String.append "Guest-" (substring 0 6 self)) in
    let st := fresh_state safeName r in
    let room' := {| members := set (members room) self st |} in
    let sk := sock_join (sockets s) self roomId in
    ({| rooms := set (rooms s) roomId room'; sockets := sk |},
     [(self, m_joined self (peers_of (members room') self))]
       ++ socket_to_m sk self roomId (m_peer_joined self st)).

Definition on_signal (self : SessionId) (p : SignalPayload) (s : Server) : Server * Out :=
  match get (rooms s) (sp_roomId p) with
  | None => (s, [])
  | Some room =>
      if negb (has (members room) (sp_to p)) then (s, [])
      else (s, io_to_m (sockets s) (sp_to p) (m_signal p self))
  end.

Definition on_leave (self : SessionId) (roomId : RoomId) (s : Server) : Server * Out :=
  let sk := sock_leave (sockets s) self roomId in
  let out := socket_to_m sk self roomId (m_peer_left self) in
  ({| rooms := drop_member self roomId (rooms s); sockets := sk |}, out).

Definition on_disconnecting (self : SessionId) (s : Server) : Server * Out :=
  let sk := sockets s in
  let names := match get sk self with Some rs => rs | None => [] end in
  let '(rs1, out1) := disc_rooms self sk names (rooms s) in
  ({| rooms := rs1; sockets := delete sk self |}, out1).

Definition on_state_update (self : SessionId) (roomId : RoomId) (partial : PartialState)
    (s : Server) : Server * Out :=
  match get (rooms s) roomId with
  | None => (s, [])
  | Some room =>
      match get (members room) self with
      | None => (s, [])
      | Some current =>
          let room' := {| members := set (members room) self (merge current partial) |} in
          ({| rooms := set (rooms s) roomId room'; sockets := sockets s |},
           socket_to_m (sockets s) self roomId (m_state_update self partial))
      end
  end.

Definition on_rename (self : SessionId) (roomId : RoomId) (nm : option string)
    (s : Server) : Server * Out :=
  match get (rooms s) roomId with
  | None => (s, [])
  | Some room =>
      match get (members room) self with
      | None => (s, [])
      | Some current =>
          let safeName := safe_name nm (name current) in
          let updated := {| name := safeName; muted := muted current;
                            videoOn := videoOn current; handRaised := handRaised current;
                            sharing := sharing current; role := role current |} in
          let room' := {| members := set (members room) self updated |} in
          ({| rooms := set (rooms s) roomId room'; sockets := sockets s |},
           io_to_m (sockets s) roomId (m_state_update self (name_only safeName)))
      end
  end.

Definition on_reaction (self : SessionId) (roomId : RoomId) (emoji : option string)
    (s : Server) : Server * Out :=
  match get (rooms s) roomId, emoji with
  | Some _, Some e =>
      if String.eqb e "" then (s, [])
      else (s, io_to_m (sockets s) roomId (m_reaction self e))
  | _, _ => (s, [])
  end.

Definition handle (self : SessionId) (ev : Event) (s : Server) : Server * Out :=
  match ev with
  | ev_join r nm => on_join self r nm s
  | ev_signal p => on_signal self p s
  | ev_leave r => on_leave self r s
  | ev_disconnecting => on_disconnecting self s
  | ev_state_update r p => on_state_update self r p s
  | ev_rename r nm => on_rename self r nm s
  | ev_reaction r e _ => on_reaction self r e s
  end.

Definition fresh_b (s : Server) (id : SessionId) : bool :=
  negb (has (sockets s) id)
  && forallb (fun p => negb (has (members (snd p)) id)) (rooms s).

Definition connect (s : Server) (id : SessionId) : Server :=
  {| rooms := rooms s; sockets := set (sockets s) id [id] |}.

Inductive step : Server -> Server -> Prop :=
| step_connect s id :
    fresh_b s id = true -> step s (connect s id)
| step_event s self ev :
    has (sockets s) self = true -> step s (fst (handle self ev s)).

Inductive reachable : Server -> Prop :=
| reach_init : reachable init
| reach_step s s' : reachable s -> step s s' -> reachable s'.

End Handlers.

End V1.

(** A JavaScript [Set<string>], in insertion order. *)
Module JsSet.

Definition t := list string.

Definition has (m : t) (x : string) : bool := existsb (String.eqb x) m.

(** [m.add(x)] *)
Definition add (m : t) (x : string) : t := if has m x then m else m ++ [x].

(** [m.delete(x)] *)
Definition delete (m : t) (x : string) : t :=
  filter (fun y => negb (String.eqb y x)) m.

Definition size (m : t) : nat := length m.

End JsSet.

(** The room table of the two variants that keep members in a [Set]. *)
Module SetRooms.

Record RoomInfo := { members : JsSet.t }.

Record Server := {
  rooms : JsMap.t RoomInfo;
  sockets : JsMap.t (list string)
}.

Definition init : Server := {| rooms := []; sockets := [] |}.

(** [rooms.get(roomId) || { members: new Set() }] *)
Definition room_or_new (s : Server) (roomId : RoomId) : RoomInfo :=
  match get (rooms s) roomId with Some r => r | None => {| members := [] |} end.

(** [room.members.delete(id); if (room.members.size === 0) rooms.delete(roomId)] *)
Definition drop_member (self : SessionId) (roomId : RoomId) (rs : JsMap.t RoomInfo) :=
  match get rs roomId with
  | Some room =>
      let ms := JsSet.delete (members room) self in
      if Nat.eqb (JsSet.size ms) 0 then delete rs roomId
      else set rs roomId {| members := ms |}
  | None => rs
  end.

(** The loop of [disconnecting]; [left] is the message sent to the other
    sockets of each room. *)
Fixpoint disc_rooms {M : Type} (left : M) (self : SessionId) (sk : JsMap.t (list string))
    (names : list string) (rs : JsMap.t RoomInfo) : JsMap.t RoomInfo * list (SessionId * M) :=
  match names with
  | [] => (rs, [])
  | n :: ns =>
      if String.eqb n self then disc_rooms left self sk ns rs
      else
        let out := socket_to_m sk self n left in
        let '(rs', out') := disc_rooms left self sk ns (drop_member self n rs) in
        (rs', out ++ out')
  end.

Definition fresh_b (s : Server) (id : SessionId) : bool :=
  negb (has (sockets s) id)
  && forallb (fun p => negb (JsSet.has (members (snd p)) id)) (rooms s).

Definition connect (s : Server) (id : SessionId) : Server :=
  {| rooms := rooms s; sockets := set (sockets s) id [id] |}.

End SetRooms.

(** The two-party server (src/unnamed/part_000, lines 150-227). *)
Module V2.
Import SetRooms.

(** Signal payloads of this variant carry no recipient. *)
Record SignalPayload := {
  sp_roomId : RoomId;
  sp_type : SigType;
  sp_body : string
}.

(** The [data] of a [signal] message. *)
Inductive SignalData :=
| sd_payload (p : SignalPayload)     (* a client's payload, relayed as is *)
| sd_wake                            (* [{ type: "candidate", candidate: null }] *)
| sd_peer_left.                      (* [{ type: "peer-left" }] *)

Inductive S2C :=
| m_error (reason : string)
| m_joined (isInitiator : bool)
| m_signal (data : SignalData).

Definition Out := list (SessionId * S2C).

Inductive Event :=
| ev_join (roomId : RoomId)
| ev_signal (p : SignalPayload)
| ev_leave (roomId : RoomId)
| ev_disconnecting.

Definition on_join (self : SessionId) (roomId : RoomId) (s : Server) : Server * Out :=
  let room := room_or_new s roomId in
  if Nat.leb 2 (JsSet.size (members room)) then (s, [(self, m_error "room-full")])
  else
    let room' := {| members := JsSet.add (members room) self |} in
    let sk := sock_join (sockets s) self roomId in
    let isInitiator := Nat.eqb (JsSet.size (members room')) 1 in
    ({| rooms := set (rooms s) roomId room'; sockets := sk |},
     [(self, m_joined isInitiator)] ++ socket_to_m sk self roomId (m_signal sd_wake)).

Definition on_signal (self : SessionId) (p : SignalPayload) (s : Server) : Server * Out :=
  (s, socket_to_m (sockets s) self (sp_roomId p) (m_signal (sd_payload p))).

Definition on_leave (self : SessionId) (roomId : RoomId) (s : Server) : Server * Out :=
  let sk := sock_leave (sockets s) self roomId in
  let out := socket_to_m sk self roomId (m_signal sd_peer_left) in
  ({| rooms := drop_member self roomId (rooms s); sockets := sk |}, out).

Definition on_disconnecting (self : SessionId) (s : Server) : Server * Out :=
  let sk := sockets s in
  let names := match get sk self with Some rs => rs | None => [] end in
  let '(rs1, out1) := disc_rooms (m_signal sd_peer_left) self sk names (rooms s) in
  ({| rooms := rs1; sockets := delete sk self |}, out1).

Definition handle (self : SessionId) (ev : Event) (s : Server) : Server * Out :=
  match ev with
  | ev_join r => on_join self r s
  | ev_signal p => on_signal self p s
  | ev_leave r => on_leave self r s
  | ev_disconnecting => on_disconnecting self s
  end.

Inductive step : Server -> Server -> Prop :=
| step_connect s id :
    fresh_b s id = true -> step s (connect s id)
| step_event s self ev :
    has (sockets s) self = true -> step s (fst (handle self ev s)).

Inductive reachable : Server -> Prop :=
| reach_init : reachable init
| reach_step s s' : reachable s -> step s s' -> reachable s'.

End V2.

(** The group-call server with member ids only
    (src/unnamed/part_000, lines 231-328). *)
Module V3.
Import SetRooms.

Inductive S2C :=
| m_error (reason : string)
| m_joined (selfId : SessionId) (peers : list SessionId)
| m_peer_joined (id : SessionId)
| m_peer_left (id : SessionId)
| m_signal (payload : SignalPayload) (from : SessionId).

Definition Out := list (SessionId * S2C).

Inductive Event :=
| ev_join (roomId : RoomId)
| ev_signal (p : SignalPayload)
| ev_leave (roomId : RoomId)
| ev_disconnecting.

Section Handlers.

Variable MAX_ROOM_SIZE : nat.

Definition on_join (self : SessionId) (roomId : RoomId) (s : Server) : Server * Out :=
  let room := room_or_new s roomId in
  if Nat.leb MAX_ROOM_SIZE (JsSet.size (members room)) then
    (s, [(self, m_error "room-full")])
  else
    let room' := {| members := JsSet.add (members room) self |} in
    let sk := sock_join (sockets s) self roomId in
    let peers := filter (fun id => negb (String.eqb id self)) (members room') in
    ({| rooms := set (rooms s) roomId room'; sockets := sk |},
     [(self, m_joined self peers)] ++ socket_to_m sk self roomId (m_peer_joined self)).

Definition on_signal (self : SessionId) (p : SignalPayload) (s : Server) : Server * Out :=
  match get (rooms s) (sp_roomId p) with
  | None => (s, [])
  | Some room =>
      if negb (JsSet.has (members room) (sp_to p)) then (s, [])
      else (s, io_to_m (sockets s) (sp_to p) (m_signal p self))
  end.

Definition on_leave (self : SessionId) (roomId : RoomId) (s : Server) : Server * Out :=
  let sk := sock_leave (sockets s) self roomId in
  let out := socket_to_m sk self roomId (m_peer_left self) in
  ({| rooms := drop_member self roomId (rooms s); sockets := sk |}, out).

Definition on_disconnecting (self : SessionId) (s : Server) : Server * Out :=
  let sk := sockets s in
  let names := match get sk self with Some rs => rs | None => [] end in
  let '(rs1, out1) := disc_rooms (m_peer_left self) self sk names (rooms s) in
  ({| rooms := rs1; sockets := delete sk self |}, out1).

Definition handle (self : SessionId) (ev : Event) (s : Server) : Server * Out :=
  match ev with
  | ev_join r => on_join self r s
  | ev_signal p => on_signal self p s
  | ev_leave r => on_leave self r s
  | ev_disconnecting => on_disconnecting self s
  end.

Inductive step : Server -> Server -> Prop :=
| step_connect s id :
    fresh_b s id = true -> step s (connect s id)
| step_event s self ev :
    has (sockets s) self = true -> step s (fst (handle self ev s)).

Inductive reachable : Server -> Prop :=
| reach_init : reachable init
| reach_step s s' : reachable s -> step s s' -> reachable s'.

End Handlers.

End V3.

(** Membership of [x] in room [r] of a room table. *)
Definition mem_rs (rs : JsMap.t RoomInfo) (r : RoomId) (x : SessionId) : bool :=
  match get rs r with Some room => has (members room) x | None => false end.


(** Every room in a table of the first variant has between one and [cap]
    members. *)
Definition V1_bounded (cap : nat) (rs : JsMap.t V1.RoomInfo) : Prop :=
  forall r room, get rs r = Some room -> 0 < size (V1.members room) <= cap.

(** The same for the tables that keep members in a [Set]. *)
Definition set_bounded (cap : nat) (rs : JsMap.t SetRooms.RoomInfo) : Prop :=
  forall r room, get rs r = Some room -> 0 < JsSet.size (SetRooms.members room) <= cap.
(** * Facts about the model *)

(** ** [JsMap] *)
Section JsMapFacts.
Context {V : Type}.
Implicit Types (m : JsMap.t V) (k x : string) (v : V).

Lemma get_set m k v x :
  get (set m k v) x = if String.eqb k x then Some v else get m x.
Proof.
  induction m as [|[k0 v0] m IH]; simpl; [reflexivity|].
  destruct (String.eqb_spec k0 k) as [->|Hne]; simpl.
  - destruct (String.eqb k x); reflexivity.
  - rewrite IH. destruct (String.eqb_spec k0 x), (String.eqb_spec k x); congruence.
Qed.

Lemma get_delete m k x :
  get (delete m k) x = if String.eqb k x then None else get m x.
Proof.
  unfold delete.
  induction m as [|[k0 v0] m IH]; simpl; [destruct (String.eqb k x); reflexivity|].
  destruct (String.eqb_spec k0 k) as [->|Hne]; simpl.
  - rewrite IH. destruct (String.eqb k x); reflexivity.
  - rewrite IH. destruct (String.eqb_spec k0 x), (String.eqb_spec k x); congruence.
Qed.

Lemma has_set m k v x :
  has (set m k v) x = String.eqb k x || has m x.
Proof. unfold has. rewrite get_set. destruct (String.eqb k x); reflexivity. Qed.

Lemma has_delete m k x :
  has (delete m k) x = negb (String.eqb k x) && has m x.
Proof. unfold has. rewrite get_delete. destruct (String.eqb k x); reflexivity. Qed.

Lemma set_not_nil m k v : set m k v <> [].
Proof. destruct m as [|[k0 v0] m]; simpl; [discriminate|]. destruct (String.eqb k0 k); discriminate. Qed.

Lemma get_set_same m k v : get (set m k v) k = Some v.
Proof. rewrite get_set, String.eqb_refl. reflexivity. Qed.

Lemma get_In m k v : get m k = Some v -> In (k, v) m.
Proof.
  induction m as [|[k0 v0] m IH]; simpl; [discriminate|].
  destruct (String.eqb_spec k0 k) as [->|_]; intros H; [inversion H; auto|auto].
Qed.

Lemma In_keys_set m k v x : In x (keys (set m k v)) <-> x = k \/ In x (keys m).
Proof.
  unfold keys. induction m as [|[k0 v0] m IH]; simpl; [firstorder congruence|].
  destruct (String.eqb_spec k0 k) as [->|Hne]; simpl; [firstorder congruence|].
  rewrite IH. firstorder congruence.
Qed.

Lemma NoDup_keys_set m k v : NoDup (keys m) -> NoDup (keys (set m k v)).
Proof.
  unfold keys. induction m as [|[k0 v0] m IH]; simpl; intros Hnd.
  - constructor; [simpl; tauto|constructor].
  - inversion Hnd as [|? ? Hnin Hnd']; subst.
    destruct (String.eqb_spec k0 k) as [->|Hne]; simpl.
    + constructor; assumption.
    + constructor; [|apply IH; assumption].
      change (~ In k0 (keys (set m k v))). rewrite In_keys_set. unfold keys. tauto.
Qed.

Lemma NoDup_keys_delete m k : NoDup (keys m) -> NoDup (keys (delete m k)).
Proof.
  unfold keys, delete. induction m as [|[k0 v0] m IH]; simpl; intros Hnd; [constructor|].
  inversion Hnd as [|? ? Hnin Hnd']; subst.
  destruct (negb (String.eqb k0 k)); simpl; [|auto].
  constructor; [|auto].
  intros Hin. apply Hnin. apply in_map_iff in Hin as [[k1 v1] [Hk Hin]].
  apply filter_In in Hin as [Hin _]. simpl in Hk; subst.
  apply in_map_iff. exists (k0, v1). auto.
Qed.

End JsMapFacts.

(** ** Hosts *)

Lemma count_hosts_delete ms x : count_hosts (delete ms x) <= count_hosts ms.
Proof.
  unfold count_hosts, delete.
  induction ms as [|[k v] ms IH]; simpl; [lia|].
  destruct (negb (String.eqb k x)); simpl;
    destruct (is_host (role v)); simpl; lia.
Qed.

Lemma count_hosts_set_guest ms x v :
  role v = guest -> count_hosts (set ms x v) <= count_hosts ms.
Proof.
  intros Hr. unfold count_hosts.
  induction ms as [|[k w] ms IH]; simpl; [rewrite Hr; simpl; lia|].
  destruct (String.eqb k x); simpl; rewrite ?Hr; simpl;
    destruct (is_host (role w)); simpl; lia.
Qed.

Lemma count_hosts_set_same ms x cur v :
  get ms x = Some cur -> role v = role cur -> count_hosts (set ms x v) = count_hosts ms.
Proof.
  intros Hg Hr. unfold count_hosts.
  induction ms as [|[k w] ms IH]; simpl in *; [discriminate|].
  destruct (String.eqb_spec k x) as [->|Hne]; simpl.
  - inversion Hg; subst. rewrite Hr. destruct (is_host (role cur)); reflexivity.
  - destruct (is_host (role w)); simpl; rewrite IH by assumption; reflexivity.
Qed.

(** ** Each client event changes each room by a sequence of [room_change]s *)

Lemma changes_preserve free (P : option RoomInfo -> Prop) :
  (forall o o', room_change free o o' -> P o -> P o') ->
  forall o o', changes free o o' -> P o -> P o'.
Proof.
  intros Hstep o o' Hc. induction Hc; eauto.
Qed.

Lemma changes_set free rs r0 room' :
  room_change free (get rs r0) (Some room') ->
  forall r, changes free (get rs r) (get (set rs r0 room') r).
Proof.
  intros Hc r. rewrite get_set.
  destruct (String.eqb_spec r0 r) as [<-|_]; [apply rt_step; exact Hc|apply rt_refl].
Qed.

Lemma drop_member_changes free x r0 rs r :
  changes free (get rs r) (get (drop_member x r0 rs) r).
Proof.
  unfold drop_member. destruct (get rs r0) as [room|] eqn:Hg; [|apply rt_refl].
  destruct (Nat.eqb_spec (size (delete (members room) x)) 0) as [H0|H0].
  - rewrite get_delete. destruct (String.eqb_spec r0 r) as [<-|_]; [|apply rt_refl].
    rewrite Hg. apply rt_step. eapply rc_remove; eassumption.
  - apply changes_set. rewrite Hg. apply rc_drop. exact H0.
Qed.

Lemma disc_rooms_changes free x sk names : forall rs r,
  changes free (get rs r) (get (fst (disc_rooms x sk names rs)) r).
Proof.
  induction names as [|n ns IH]; intros rs r; simpl; [apply rt_refl|].
  destruct (String.eqb n x); [apply IH|].
  destruct (disc_rooms x sk ns (drop_member x n rs)) as [rs' out'] eqn:Hd. simpl.
  eapply rt_trans; [apply (drop_member_changes free x n rs r)|].
  specialize (IH (drop_member x n rs) r). rewrite Hd in IH. exact IH.
Qed.

Lemma disc_waiting_get x sk rs r :
  get (fst (disc_waiting x sk rs)) r =
  option_map (fun room => if has (waiting room) x
                          then with_waiting room (delete (waiting room) x) else room)
             (get rs r).
Proof.
  induction rs as [|[rid room] rest IH]; simpl; [reflexivity|].
  destruct (disc_waiting x sk rest) as [rest' out] eqn:Hd. simpl in IH.
  destruct (has (waiting room) x) eqn:Hw; simpl;
    destruct (String.eqb rid r); simpl; rewrite ?Hw; auto.
Qed.

Lemma disc_waiting_changes free x sk rs r :
  changes free (get rs r) (get (fst (disc_waiting x sk rs)) r).
Proof.
  rewrite disc_waiting_get. destruct (get rs r) as [room|]; simpl; [|apply rt_refl].
  destruct (has (waiting room) x); [apply rt_step, rc_unwait|apply rt_refl].
Qed.

Lemma handle_changes MAX self ev s r :
  changes (negb (no_role_update ev)) (get (rooms s) r)
    (get (rooms (fst (handle MAX self ev s))) r).
Proof.
  destruct ev as [r0 nm|p|r0| |r0 p|r0 nm|r0 e t|r0 lk|r0 id|r0 id]; simpl.
  - (* join *)
    unfold on_join.
    destruct (Nat.leb MAX (size (members (room_or_new s r0)))); [apply rt_refl|].
    destruct (locked (room_or_new s r0) && Nat.ltb 0 (size (members (room_or_new s r0))))
      eqn:Hw; simpl; apply changes_set.
    + apply andb_true_iff in Hw as [_ Hlt]. apply Nat.ltb_lt in Hlt.
      unfold room_or_new in *. destruct (get (rooms s) r0) as [room|].
      * apply rc_wait. exact Hlt.
      * simpl in Hlt. lia.
    + exact (rc_join _ (get (rooms s) r0) self _).
  - (* signal *)
    unfold on_signal. destruct (get (rooms s) (sp_roomId p)); [|apply rt_refl].
    destruct (negb _); apply rt_refl.
  - (* leave *)
    apply drop_member_changes.
  - (* disconnecting *)
    unfold on_disconnecting.
    destruct (disc_rooms self (sockets s) _ (rooms s)) as [rs1 out1] eqn:H1.
    destruct (disc_waiting self (sockets s) rs1) as [rs2 out2] eqn:H2. simpl.
    eapply rt_trans.
    + apply (disc_rooms_changes _ self (sockets s)
               (match get (sockets s) self with Some rs => rs | None => [] end)).
    + rewrite H1. simpl. change rs2 with (fst (rs2, out2)). rewrite <- H2.
      apply disc_waiting_changes.
  - (* state-update *)
    unfold on_state_update. destruct (get (rooms s) r0) as [room|] eqn:Hg; [|apply rt_refl].
    destruct (get (members room) self) as [cur|] eqn:Hm; [|apply rt_refl].
    simpl. apply changes_set. rewrite Hg. eapply rc_update; [exact Hm|].
    simpl. destruct (p_role p); simpl; auto.
  - (* rename *)
    unfold on_rename. destruct (get (rooms s) r0) as [room|] eqn:Hg; [|apply rt_refl].
    destruct (get (members room) self) as [cur|] eqn:Hm; [|apply rt_refl].
    simpl. apply changes_set. rewrite Hg. eapply rc_update; [exact Hm|]. left; reflexivity.
  - (* reaction *)
    unfold on_reaction. destruct (get (rooms s) r0), e as [e|]; try apply rt_refl.
    destruct (String.eqb e ""); apply rt_refl.
  - (* lock-room *)
    unfold on_lock_room. destruct (get (rooms s) r0) as [room|] eqn:Hg; [|apply rt_refl].
    destruct (negb (caller_is_host room self)); [apply rt_refl|].
    simpl. apply changes_set. rewrite Hg. apply rc_lock.
  - (* admit *)
    unfold on_admit. destruct (get (rooms s) r0) as [room|] eqn:Hg; [|apply rt_refl].
    destruct (negb (caller_is_host room self)); [apply rt_refl|].
    destruct (get (waiting room) id) as [wname|]; [|apply rt_refl].
    destruct (get (sockets s) id); [|apply rt_refl].
    simpl. apply changes_set. rewrite Hg. exact (rc_admit _ room id wname).
  - (* deny *)
    unfold on_deny. destruct (get (rooms s) r0) as [room|] eqn:Hg; [|apply rt_refl].
    destruct (negb (caller_is_host room self)); [apply rt_refl|].
    destruct (has (waiting room) id); [|apply rt_refl].
    simpl. apply changes_set. rewrite Hg. apply rc_unwait.
Qed.

(** A per-room property preserved by every [room_change] an admitted event
    can make holds of every room of every reachable state. *)
Lemma reachable_rooms MAX ok (P : option RoomInfo -> Prop) :
  P None ->
  (forall ev, ok ev = true ->
     forall o o', room_change (negb (no_role_update ev)) o o' -> P o -> P o') ->
  forall s, reachable MAX ok s -> forall r, P (get (rooms s) r).
Proof.
  intros HNone Hpres s Hr. induction Hr as [|s s' Hr IH Hs]; intros r.
  - exact HNone.
  - inversion Hs as [s0 id Hf| s0 self ev Hc Hok]; subst.
    + apply IH.
    + eapply changes_preserve; [apply (Hpres ev Hok)|apply handle_changes|apply IH].
Qed.

(** ** Concrete runs are reachable *)

Lemma run_cons MAX a rest s :
  fst (run MAX (a :: rest) s) = fst (run MAX rest (fst (act MAX a s))).
Proof.
  simpl. destruct (act MAX a s) as [s1 o1]. simpl. destruct (run MAX rest s1). reflexivity.
Qed.

Lemma run_reachable MAX ok acts : forall s,
  reachable MAX ok s -> forallb (action_ok ok) acts = true ->
  reachable MAX ok (fst (run MAX acts s)).
Proof.
  induction acts as [|a rest IH]; intros s Hr Hok; [exact Hr|].
  simpl in Hok. apply andb_true_iff in Hok as [Ha Hrest].
  rewrite run_cons. apply IH; [|exact Hrest].
  destruct a as [id|self ev]; simpl.
  - destruct (fresh_b s id) eqn:Hf; [|exact Hr].
    eapply reach_step; [exact Hr|]. apply step_connect. exact Hf.
  - destruct (has (sockets s) self) eqn:Hs; [|exact Hr].
    eapply reach_step; [exact Hr|]. apply step_event; assumption.
Qed.

(** * Claims *)

(** ** C10 *)

(** C10: in every reachable state, every room stored in [rooms] has at least
    one active member; a waiting-only room never stays in the table. *)
Theorem rooms_never_empty MAX s r room :
  reachable MAX all_events s -> get (rooms s) r = Some room -> members room <> [].
Proof.
  intros Hr Hg.
  assert (Hinv : forall r, match get (rooms s) r with
                           | Some room => members room <> [] | None => True end).
  { apply (reachable_rooms MAX all_events
             (fun o => match o with Some room => members room <> [] | None => True end));
      [exact I| |exact Hr].
    intros ev _ o o' Hc Ho.
    inversion Hc; subst; simpl in *; auto.
    - unfold join_room. simpl. apply set_not_nil.
    - intros E. rewrite E in H. apply H. reflexivity.
    - apply set_not_nil.
    - apply set_not_nil. }
  specialize (Hinv r). rewrite Hg in Hinv. exact Hinv.
Qed.

Lemma rooms_never_empty_witness : members (room_or_new after_scenario "R") <> [].
Proof.
  apply (rooms_never_empty 10 after_scenario "R").
  - apply run_reachable; [constructor|vm_compute; reflexivity].
  - vm_compute. reflexivity.
Defined.

(** ** C2 *)

(** C2: a join into a room that already holds [MAX_ROOM_SIZE] members (or
    more) answers the joiner with [error("room-full")] only and leaves the
    whole state unchanged; the capacity test comes before the lock test, so
    this holds whether or not the room is locked. *)
Theorem join_full_rejected MAX self r nm s :
  MAX <= size (members (room_or_new s r)) ->
  handle MAX self (ev_join r nm) s = (s, [(self, m_error "room-full")]).
Proof.
  intros H. simpl. unfold on_join. apply Nat.leb_le in H. rewrite H. reflexivity.
Qed.

Lemma join_full_rejected_witness :
  locked (room_or_new locked_full "R") = true /\
  handle 1 "B" (ev_join "R" (Some "bob")) locked_full
    = (locked_full, [("B", m_error "room-full")]).
Proof.
  split; [vm_compute; reflexivity|].
  apply join_full_rejected. vm_compute. lia.
Defined.

(** ** C3 *)

(** C3 (as stated, refuted): after the host leaves, the remaining member of
    the room is a Guest and the room has no Host. *)
Lemma host_lost_on_leave :
  ~ (forall s, reachable 10 all_events s ->
       forall r room, get (rooms s) r = Some room -> members room <> [] ->
       count_hosts (members room) = 1).
Proof.
  intros H.
  set (s := fst (run 10 trace_host_leaves init)).
  assert (Hr : reachable 10 all_events s)
    by (apply run_reachable; [constructor|vm_compute; reflexivity]).
  assert (Hc : count_hosts (members (room_or_new s "R")) = 1).
  { apply (H s Hr "R"); vm_compute; [reflexivity|discriminate]. }
  vm_compute in Hc. discriminate Hc.
Qed.

(** C3 (amended): join gives role Host exactly when the room has no member
    at insertion time and Guest otherwise; admit gives Guest; and, for every
    sequence of events whose state-update partials carry no [role] field, no
    room ever holds more than one Host.  The Host role is never re-assigned,
    so a room whose Host has left can have no Host. *)
Theorem host_assignment_at_most_one MAX :
  (forall self r nm s,
     size (members (room_or_new s r)) < MAX ->
     locked (room_or_new s r) = false \/ size (members (room_or_new s r)) = 0 ->
     role_of (fst (handle MAX self (ev_join r nm) s)) r self
       = Some (if Nat.eqb (size (members (room_or_new s r))) 0 then host else guest)) /\
  (forall self r id s,
     fst (handle MAX self (ev_admit r id) s) = s \/
     role_of (fst (handle MAX self (ev_admit r id) s)) r id = Some guest) /\
  (forall s, reachable MAX no_role_update s ->
     forall r room, get (rooms s) r = Some room -> count_hosts (members room) <= 1).
Proof.
  split; [|split].
  - intros self r nm s Hlt Hlk. simpl. unfold on_join.
    apply Nat.leb_gt in Hlt. rewrite Hlt.
    replace (locked (room_or_new s r) && Nat.ltb 0 (size (members (room_or_new s r))))
      with false
      by (destruct Hlk as [-> | ->]; [reflexivity|simpl; rewrite andb_false_r; reflexivity]).
    unfold role_of. simpl. rewrite get_set, String.eqb_refl. simpl.
    rewrite get_set, String.eqb_refl. reflexivity.
  - intros self r id s. simpl. unfold on_admit.
    destruct (get (rooms s) r) as [room|]; [|left; reflexivity].
    destruct (negb (caller_is_host room self)); [left; reflexivity|].
    destruct (get (waiting room) id); [|left; reflexivity].
    destruct (get (sockets s) id); [|left; reflexivity].
    right. unfold role_of. simpl. rewrite get_set, String.eqb_refl. simpl.
    rewrite get_set, String.eqb_refl. reflexivity.
  - intros s Hr r room Hg.
    assert (Hinv : forall r, match get (rooms s) r with
                             | Some room => count_hosts (members room) <= 1
                             | None => True end).
    { apply (reachable_rooms MAX no_role_update
               (fun o => match o with
                         | Some room => count_hosts (members room) <= 1
                         | None => True end)); [exact I| |exact Hr].
      intros ev Hok o o' Hc Ho. rewrite Hok in Hc. simpl in Hc.
      inversion Hc as [room0 x n Hlt| o0 x n| room0 x Hne| room0 x H0
                      | room0 x cur v Hm Hrole| room0 lk| room0 x n| room0 x];
        subst; simpl in *; auto.
      - unfold join_room. simpl.
        destruct (Nat.eqb_spec (size (members (opt_room o))) 0) as [H0|H0].
        + apply length_zero_iff_nil in H0. rewrite H0. unfold count_hosts. simpl. lia.
        + eapply Nat.le_trans; [apply count_hosts_set_guest; reflexivity|].
          destruct o as [room0|]; [exact Ho|]. simpl. unfold count_hosts. simpl. lia.
      - eapply Nat.le_trans; [apply count_hosts_delete|exact Ho].
      - destruct Hrole as [Hrole|Hf]; [|discriminate].
        rewrite (count_hosts_set_same _ _ _ _ Hm Hrole). exact Ho.
      - eapply Nat.le_trans; [apply count_hosts_set_guest; reflexivity|exact Ho]. }
    specialize (Hinv r). rewrite Hg in Hinv. exact Hinv.
Qed.

Lemma host_assignment_at_most_one_witness :
  role_of (fst (handle 10 "A" (ev_join "R" None) one_conn)) "R" "A" = Some host /\
  count_hosts (members (room_or_new after_scenario "R")) <= 1.
Proof.
  destruct (host_assignment_at_most_one 10) as [Hj [_ Hc]]. split.
  - pose proof (Hj "A" "R" None one_conn) as E.
    assert (H1 : size (members (room_or_new one_conn "R")) < 10) by (vm_compute; lia).
    assert (H2 : locked (room_or_new one_conn "R") = false
                 \/ size (members (room_or_new one_conn "R")) = 0)
      by (vm_compute; left; reflexivity).
    specialize (E H1 H2). vm_compute in E. vm_compute. exact E.
  - refine (Hc after_scenario _ "R" (room_or_new after_scenario "R") _).
    + apply run_reachable; [constructor|vm_compute; reflexivity].
    + vm_compute. reflexivity.
Defined.

(** ** C4 *)

Lemma member_of_room_or_new s r x : member_of s r x = has (members (room_or_new s r)) x.
Proof. unfold member_of, room_or_new. destruct (get (rooms s) r); reflexivity. Qed.

Lemma waiting_in_room_or_new s r x : waiting_in s r x = has (waiting (room_or_new s r)) x.
Proof. unfold waiting_in, room_or_new. destruct (get (rooms s) r); reflexivity. Qed.

(** C4 (as stated, refuted): a member that sends join again to its locked
    room is both a member and waiting there; a session can be a member of
    two rooms; a session can wait in two rooms. *)
Lemma occupant_in_both_or_in_two_rooms :
  ~ (forall s, reachable 10 all_events s ->
       forall r x, member_of s r x && waiting_in s r x = false) /\
  ~ (forall s, reachable 10 all_events s ->
       forall r1 r2 x, member_of s r1 x = true -> member_of s r2 x = true -> r1 = r2) /\
  ~ (forall s, reachable 10 all_events s ->
       forall r1 r2 x, waiting_in s r1 x = true -> waiting_in s r2 x = true -> r1 = r2).
Proof.
  split; [|split]; intros H.
  - assert (Hr : reachable 10 all_events (fst (run 10 trace_rejoin_locked init)))
      by (apply run_reachable; [constructor|vm_compute; reflexivity]).
    specialize (H _ Hr "R" "A"). vm_compute in H. discriminate H.
  - assert (Hr : reachable 10 all_events (fst (run 10 trace_two_rooms init)))
      by (apply run_reachable; [constructor|vm_compute; reflexivity]).
    assert (E : "R1" = "R2") by (apply (H _ Hr "R1" "R2" "A"); vm_compute; reflexivity).
    discriminate E.
  - assert (Hr : reachable 10 all_events (fst (run 10 trace_wait_two init)))
      by (apply run_reachable; [constructor|vm_compute; reflexivity]).
    assert (E : "R1" = "R2") by (apply (H _ Hr "R1" "R2" "A"); vm_compute; reflexivity).
    discriminate E.
Qed.

(** C4 (amended): inside one room, [members] and [waiting] each hold a
    session at most once; a join from a session that is in neither map of the
    room leaves it in at most one of them; an admit that takes effect leaves
    the admitted session in [members] and not in [waiting].  Nothing checks a
    session's other rooms or its current place in the target room: with
    [MAX_ROOM_SIZE >= 2] a session can be a member of two rooms, wait in two
    rooms, and be both a member of and waiting in one room: a member that
    sends join again to its locked room, while that room is below
    [MAX_ROOM_SIZE], is added to [waiting] and stays in [members]; when the
    room is full the join is answered [room-full] and the state is unchanged,
    so the member stays only in [members]. *)
Theorem occupancy_per_room MAX :
  (forall s, reachable MAX all_events s ->
     forall r room, get (rooms s) r = Some room ->
     NoDup (keys (members room)) /\ NoDup (keys (waiting room))) /\
  (forall self r nm s,
     member_of s r self = false -> waiting_in s r self = false ->
     let s' := fst (handle MAX self (ev_join r nm) s) in
     member_of s' r self && waiting_in s' r self = false) /\
  (forall self r id s,
     let s' := fst (handle MAX self (ev_admit r id) s) in
     s' = s \/ (member_of s' r id = true /\ waiting_in s' r id = false)) /\
  (forall self r nm s,
     member_of s r self = true -> locked (room_or_new s r) = true ->
     size (members (room_or_new s r)) < MAX ->
     let s' := fst (handle MAX self (ev_join r nm) s) in
     member_of s' r self = true /\ waiting_in s' r self = true) /\
  (forall self r nm s,
     MAX <= size (members (room_or_new s r)) ->
     fst (handle MAX self (ev_join r nm) s) = s) /\
  (2 <= MAX ->
     let s1 := fst (run MAX trace_two_rooms init) in
     let s2 := fst (run MAX trace_wait_two init) in
     let s3 := fst (run MAX trace_rejoin_locked init) in
     (reachable MAX all_events s1 /\ member_of s1 "R1" "A" = true /\ member_of s1 "R2" "A" = true) /\
     (reachable MAX all_events s2 /\ waiting_in s2 "R1" "A" = true /\ waiting_in s2 "R2" "A" = true) /\
     (reachable MAX all_events s3 /\ member_of s3 "R" "A" = true /\ waiting_in s3 "R" "A" = true)).
Proof.
  split; [|split; [|split; [|split; [|split]]]].
  - intros s Hr r room Hg.
    assert (Hinv : forall r, match get (rooms s) r with
                             | Some room => NoDup (keys (members room)) /\ NoDup (keys (waiting room))
                             | None => True end).
    { apply (reachable_rooms MAX all_events
               (fun o => match o with
                         | Some room => NoDup (keys (members room)) /\ NoDup (keys (waiting room))
                         | None => True end)); [exact I| |exact Hr].
      intros ev _ o o' Hc Ho.
      inversion Hc; subst; simpl in *; auto;
        try (destruct Ho as [Hm Hw]; split; auto using NoDup_keys_set, NoDup_keys_delete).
      unfold join_room. simpl.
      destruct o as [room0|]; simpl in *.
      - destruct Ho as [Hm Hw]. split; auto using NoDup_keys_set.
      - split; [constructor; [intros []|constructor]|constructor]. }
    specialize (Hinv r). rewrite Hg in Hinv. exact Hinv.
  - intros self r nm s Hm Hw. simpl. unfold on_join.
    rewrite member_of_room_or_new in Hm. rewrite waiting_in_room_or_new in Hw.
    destruct (Nat.leb MAX (size (members (room_or_new s r)))).
    + simpl. rewrite member_of_room_or_new, Hm. reflexivity.
    + destruct (locked (room_or_new s r) && Nat.ltb 0 (size (members (room_or_new s r))));
        unfold member_of, waiting_in; simpl; rewrite get_set_same; simpl.
      * rewrite Hm. reflexivity.
      * rewrite Hw. apply andb_false_r.
  - intros self r id s. simpl. unfold on_admit.
    destruct (get (rooms s) r) as [room|]; [|left; reflexivity].
    destruct (negb (caller_is_host room self)); [left; reflexivity|].
    destruct (get (waiting room) id); [|left; reflexivity].
    destruct (get (sockets s) id); [|left; reflexivity].
    right. unfold member_of, waiting_in. simpl. rewrite get_set_same. simpl.
    rewrite has_set, has_delete, String.eqb_refl. split; reflexivity.
  - intros self r nm s Hm Hl Hlt. simpl. unfold on_join.
    rewrite member_of_room_or_new in Hm.
    assert (P : Nat.ltb 0 (size (members (room_or_new s r))) = true).
    { apply Nat.ltb_lt. destruct (members (room_or_new s r)); [discriminate|].
      unfold size. simpl. lia. }
    rewrite (proj2 (Nat.leb_gt _ _) Hlt), Hl, P. simpl.
    unfold member_of, waiting_in. simpl. rewrite get_set_same. simpl.
    rewrite has_set, String.eqb_refl. split; [exact Hm|reflexivity].
  - intros self r nm s Hf. simpl. unfold on_join.
    rewrite (proj2 (Nat.leb_le _ _) Hf). reflexivity.
  - intros HM. destruct MAX as [|[|m]]; [lia|lia|]. cbv zeta.
    split; [|split]; (split; [apply run_reachable; [constructor|vm_compute; reflexivity]|]);
      vm_compute; split; reflexivity.
Qed.

Lemma occupancy_per_room_witness :
  (NoDup (keys (members (room_or_new after_scenario "R")))
   /\ NoDup (keys (waiting (room_or_new after_scenario "R")))) /\
  member_of (fst (handle 10 "A" (ev_join "R" None) one_conn)) "R" "A"
    && waiting_in (fst (handle 10 "A" (ev_join "R" None) one_conn)) "R" "A" = false /\
  member_of (fst (run 10 trace_rejoin_locked init)) "R" "A" = true /\
  waiting_in (fst (handle 10 "A" (ev_join "R" None) trace_locked_alone)) "R" "A" = true.
Proof.
  destruct (occupancy_per_room 10) as [Hnd [Hj [_ [Hre [_ Hex]]]]].
  split; [|split; [|split]].
  - refine (Hnd after_scenario _ "R" (room_or_new after_scenario "R") _).
    + apply run_reachable; [constructor|vm_compute; reflexivity].
    + vm_compute. reflexivity.
  - apply (Hj "A" "R" None one_conn); vm_compute; reflexivity.
  - assert (H2 : 2 <= 10) by lia. apply Hex in H2. apply H2.
  - apply (Hre "A" "R" None trace_locked_alone); vm_compute; [reflexivity|reflexivity|lia].
Defined.

(** ** socket.io room sets *)

Lemma has_sock_join sk y n x : has (sock_join sk y n) x = has sk x.
Proof.
  unfold sock_join. destruct (get sk y) as [rs|] eqn:G; [|reflexivity].
  rewrite has_set. destruct (String.eqb_spec y x) as [<-|_]; [|reflexivity].
  unfold has. rewrite G. reflexivity.
Qed.

Lemma has_sock_leave sk y n x : has (sock_leave sk y n) x = has sk x.
Proof.
  unfold sock_leave. destruct (get sk y) as [rs|] eqn:G; [|reflexivity].
  rewrite has_set. destruct (String.eqb_spec y x) as [<-|_]; [|reflexivity].
  unfold has. rewrite G. reflexivity.
Qed.

Lemma joined_sock_join_mono sk y n x r :
  joined sk x r = true -> joined (sock_join sk y n) x r = true.
Proof.
  unfold joined, sock_join. destruct (get sk y) as [rs|] eqn:G; [|auto].
  rewrite get_set. destruct (String.eqb_spec y x) as [<-|_]; [|auto].
  rewrite G. intros H. destruct (in_room n rs); [exact H|].
  unfold in_room in *. rewrite existsb_app, H. reflexivity.
Qed.

Lemma joined_sock_join_self sk y n :
  has sk y = true -> joined (sock_join sk y n) y n = true.
Proof.
  unfold has, joined, sock_join. destruct (get sk y) as [rs|]; [|discriminate].
  intros _. rewrite get_set_same. destruct (in_room n rs) eqn:E; [exact E|].
  unfold in_room. rewrite existsb_app. simpl. rewrite String.eqb_refl, orb_true_r.
  reflexivity.
Qed.

Lemma joined_sock_leave sk y n x r :
  joined sk x r = true -> (x <> y \/ r <> n) -> joined (sock_leave sk y n) x r = true.
Proof.
  unfold joined, sock_leave. destruct (get sk y) as [rs|] eqn:G; [|auto].
  rewrite get_set. destruct (String.eqb_spec y x) as [<-|_]; [|auto].
  rewrite G. intros H [C|C]; [congruence|].
  unfold in_room in *. apply existsb_exists in H as [z [Hz Hrz]].
  apply String.eqb_eq in Hrz. subst z.
  apply existsb_exists. exists r. split; [|apply String.eqb_refl].
  apply filter_In. split; [exact Hz|]. apply negb_true_iff, String.eqb_neq. exact C.
Qed.

Lemma joined_delete sk y x r :
  joined (delete sk y) x r = if String.eqb y x then false else joined sk x r.
Proof. unfold joined. rewrite get_delete. destruct (String.eqb y x); reflexivity. Qed.

Lemma io_to_In sk n m x : joined sk x n = true -> In (x, m) (io_to sk n m).
Proof.
  unfold joined, io_to. destruct (get sk x) as [rs|] eqn:G; [|discriminate].
  intros H. apply in_map_iff. exists (x, rs). split; [reflexivity|].
  apply filter_In. split; [apply get_In; exact G|exact H].
Qed.

(** ** Members only shrink under leave and disconnect *)

Lemma drop_member_shrink x r0 rs r room' :
  get (drop_member x r0 rs) r = Some room' ->
  exists room, get rs r = Some room /\
    forall y, has (members room') y = true ->
              has (members room) y = true /\ (r = r0 -> y <> x).
Proof.
  unfold drop_member. destruct (get rs r0) as [room|] eqn:G.
  - destruct (Nat.eqb (size (delete (members room) x)) 0).
    + rewrite get_delete. destruct (String.eqb_spec r0 r) as [_|Hne]; [discriminate|].
      intros Hg. exists room'. split; [exact Hg|]. intros y Hy. split; [exact Hy|congruence].
    + rewrite get_set. destruct (String.eqb_spec r0 r) as [<-|Hne].
      * intros Hg. injection Hg as <-. exists room. split; [exact G|].
        intros y Hy. simpl in Hy. rewrite has_delete in Hy.
        apply andb_true_iff in Hy as [Hxy Hy]. split; [exact Hy|].
        intros _ ->. rewrite String.eqb_refl in Hxy. discriminate.
      * intros Hg. exists room'. split; [exact Hg|]. intros y Hy. split; [exact Hy|congruence].
  - intros Hg. exists room'. split; [exact Hg|]. intros y Hy. split; [exact Hy|].
    intros ->. congruence.
Qed.

Lemma disc_rooms_shrink x sk names : forall rs r room',
  get (fst (disc_rooms x sk names rs)) r = Some room' ->
  exists room, get rs r = Some room /\
    forall y, has (members room') y = true -> has (members room) y = true.
Proof.
  induction names as [|n ns IH]; intros rs r room' Hg; simpl in Hg.
  - exists room'. auto.
  - destruct (String.eqb n x); [eapply IH; exact Hg|].
    destruct (disc_rooms x sk ns (drop_member x n rs)) as [rs' out'] eqn:Hd.
    simpl in Hg. specialize (IH (drop_member x n rs) r room'). rewrite Hd in IH.
    destruct (IH Hg) as [room1 [G1 H1]].
    destruct (drop_member_shrink x n rs r room1 G1) as [room0 [G0 H0]].
    exists room0. split; [exact G0|]. intros y Hy. apply H0, H1, Hy.
Qed.

(** Setting one room, with a new member only if it has joined. *)
Lemma members_joined_set s r0 room' sk' :
  members_joined s ->
  (forall x, has sk' x = has (sockets s) x) ->
  (forall x r, joined (sockets s) x r = true -> joined sk' x r = true) ->
  (forall x, has (members room') x = true -> has (sockets s) x = true ->
     has (members (room_or_new s r0)) x = true \/ joined sk' x r0 = true) ->
  members_joined {| rooms := set (rooms s) r0 room'; sockets := sk' |}.
Proof.
  intros Hmj Hhas Hmono Hnew r room x Hg Hx Hc. simpl in *.
  rewrite Hhas in Hc. rewrite get_set in Hg.
  destruct (String.eqb_spec r0 r) as [<-|Hne].
  - injection Hg as <-. destruct (Hnew x Hx Hc) as [Hold|Hj]; [|exact Hj].
    apply Hmono. unfold room_or_new in Hold.
    destruct (get (rooms s) r0) as [room0|] eqn:G; [|discriminate].
    eapply Hmj; eassumption.
  - apply Hmono. eapply Hmj; eassumption.
Qed.

Lemma members_joined_step MAX ok s s' :
  members_joined s -> step MAX ok s s' -> members_joined s'.
Proof.
  intros Hmj Hs. inversion Hs as [s0 id Hf| s0 self ev Hc Hok]; subst.
  - (* a new connection *)
    intros r room x Hg Hx Hcx. simpl in *.
    unfold fresh_b in Hf. apply andb_true_iff in Hf as [_ Hall].
    rewrite has_set in Hcx. unfold joined. rewrite get_set.
    destruct (String.eqb_spec id x) as [<-|Hne].
    + exfalso. rewrite forallb_forall in Hall.
      specialize (Hall (r, room) (get_In _ _ _ Hg)). simpl in Hall.
      rewrite Hx in Hall. discriminate.
    + simpl in Hcx. change (joined (sockets s) x r = true). eapply Hmj; eassumption.
  - destruct ev as [r0 nm|p|r0| |r0 p|r0 nm|r0 e t|r0 lk|r0 id|r0 id]; simpl.
    + (* join *)
      unfold on_join.
      destruct (Nat.leb MAX (size (members (room_or_new s r0)))); [exact Hmj|].
      destruct (locked (room_or_new s r0) && Nat.ltb 0 (size (members (room_or_new s r0)))).
      * apply members_joined_set; [exact Hmj|reflexivity|auto|].
        intros x Hx _. left. exact Hx.
      * apply members_joined_set;
          [exact Hmj|intros; apply has_sock_join|intros; apply joined_sock_join_mono; assumption|].
        intros x Hx Hcx. simpl in Hx. rewrite has_set in Hx.
        destruct (String.eqb_spec self x) as [E|_]; [subst x|].
        -- right. apply joined_sock_join_self. exact Hc.
        -- left. exact Hx.
    + (* signal *)
      unfold on_signal. destruct (get (rooms s) (sp_roomId p)); [|exact Hmj].
      destruct (negb _); exact Hmj.
    + (* leave *)
      unfold on_leave. intros r room x Hg Hx Hcx. simpl in *.
      rewrite has_sock_leave in Hcx.
      destruct (drop_member_shrink self r0 (rooms s) r room Hg) as [room0 [G0 H0]].
      destruct (H0 x Hx) as [Hx0 Hne].
      apply joined_sock_leave; [eapply Hmj; eassumption|].
      destruct (String.eqb_spec r r0) as [->|Hrn]; [left; apply Hne; reflexivity|right; exact Hrn].
    + (* disconnecting *)
      unfold on_disconnecting.
      destruct (disc_rooms self (sockets s) _ (rooms s)) as [rs1 out1] eqn:H1.
      destruct (disc_waiting self (sockets s) rs1) as [rs2 out2] eqn:H2.
      intros r room x Hg Hx Hcx. simpl in *.
      rewrite has_delete in Hcx. apply andb_true_iff in Hcx as [Hxs Hcx].
      rewrite joined_delete. destruct (String.eqb self x); [discriminate|].
      assert (E2 : rs2 = fst (disc_waiting self (sockets s) rs1)) by (rewrite H2; reflexivity).
      rewrite E2, disc_waiting_get in Hg.
      destruct (get rs1 r) as [room1|] eqn:G1; [|discriminate]. simpl in Hg.
      assert (Hx1 : has (members room1) x = true).
      { destruct (has (waiting room1) self); injection Hg as <-; exact Hx. }
      assert (E1 : rs1 = fst (disc_rooms self (sockets s)
                               (match get (sockets s) self with Some rs => rs | None => [] end)
                               (rooms s))) by (rewrite H1; reflexivity).
      rewrite E1 in G1. apply disc_rooms_shrink in G1 as [room0 [G0 H0]].
      eapply Hmj; [exact G0|apply H0, Hx1|exact Hcx].
    + (* state-update *)
      unfold on_state_update.
      destruct (get (rooms s) r0) as [room|] eqn:G; [|exact Hmj].
      destruct (get (members room) self) as [cur|] eqn:Gm; [|exact Hmj].
      apply members_joined_set; [exact Hmj|reflexivity|auto|].
      intros x Hx _. left. simpl in Hx. rewrite has_set in Hx.
      unfold room_or_new. rewrite G.
      destruct (String.eqb_spec self x) as [E|_]; [subst x; unfold has; rewrite Gm; reflexivity|exact Hx].
    + (* rename *)
      unfold on_rename.
      destruct (get (rooms s) r0) as [room|] eqn:G; [|exact Hmj].
      destruct (get (members room) self) as [cur|] eqn:Gm; [|exact Hmj].
      apply members_joined_set; [exact Hmj|reflexivity|auto|].
      intros x Hx _. left. simpl in Hx. rewrite has_set in Hx.
      unfold room_or_new. rewrite G.
      destruct (String.eqb_spec self x) as [E|_]; [subst x; unfold has; rewrite Gm; reflexivity|exact Hx].
    + (* reaction *)
      unfold on_reaction. destruct (get (rooms s) r0), e as [e|]; try exact Hmj.
      destruct (String.eqb e ""); exact Hmj.
    + (* lock-room *)
      unfold on_lock_room.
      destruct (get (rooms s) r0) as [room|] eqn:G; [|exact Hmj].
      destruct (negb (caller_is_host room self)); [exact Hmj|].
      apply members_joined_set; [exact Hmj|reflexivity|auto|].
      intros x Hx _. left. unfold room_or_new. rewrite G. exact Hx.
    + (* admit *)
      unfold on_admit.
      destruct (get (rooms s) r0) as [room|] eqn:G; [|exact Hmj].
      destruct (negb (caller_is_host room self)); [exact Hmj|].
      destruct (get (waiting room) id) as [wname|]; [|exact Hmj].
      destruct (get (sockets s) id) as [rsid|] eqn:Gid; [|exact Hmj].
      apply members_joined_set;
        [exact Hmj|intros; apply has_sock_join|intros; apply joined_sock_join_mono; assumption|].
      intros x Hx _. simpl in Hx. rewrite has_set in Hx.
      destruct (String.eqb_spec id x) as [E|_]; [subst x|].
      * right. apply joined_sock_join_self. unfold has. rewrite Gid. reflexivity.
      * left. unfold room_or_new. rewrite G. exact Hx.
    + (* deny *)
      unfold on_deny.
      destruct (get (rooms s) r0) as [room|] eqn:G; [|exact Hmj].
      destruct (negb (caller_is_host room self)); [exact Hmj|].
      destruct (has (waiting room) id); [|exact Hmj].
      apply members_joined_set; [exact Hmj|reflexivity|auto|].
      intros x Hx _. left. unfold room_or_new. rewrite G. exact Hx.
Qed.

Lemma reachable_members_joined MAX ok s : reachable MAX ok s -> members_joined s.
Proof.
  induction 1 as [|s s' _ IH Hs].
  - intros r room x Hg. discriminate Hg.
  - eapply members_joined_step; eassumption.
Qed.

(** ** C5 *)

Lemma member_of_set s r0 room' sk r x :
  member_of {| rooms := set (rooms s) r0 room'; sockets := sk |} r x
  = if String.eqb r0 r then has (members room') x else member_of s r x.
Proof. unfold member_of. simpl. rewrite get_set. destruct (String.eqb r0 r); reflexivity. Qed.

Lemma disconnecting_members_shrink self s r room :
  get (rooms (fst (on_disconnecting self s))) r = Some room ->
  exists room0, get (rooms s) r = Some room0 /\
    forall y, has (members room) y = true -> has (members room0) y = true.
Proof.
  unfold on_disconnecting.
  destruct (disc_rooms self (sockets s) _ (rooms s)) as [rs1 out1] eqn:H1.
  destruct (disc_waiting self (sockets s) rs1) as [rs2 out2] eqn:H2. simpl.
  intros Hg.
  assert (E2 : rs2 = fst (disc_waiting self (sockets s) rs1)) by (rewrite H2; reflexivity).
  rewrite E2, disc_waiting_get in Hg.
  destruct (get rs1 r) as [room1|] eqn:G1; [|discriminate]. simpl in Hg.
  assert (Hm : members room = members room1).
  { destruct (has (waiting room1) self); injection Hg as <-; reflexivity. }
  assert (E1 : rs1 = fst (disc_rooms self (sockets s)
                           (match get (sockets s) self with Some rs => rs | None => [] end)
                           (rooms s))) by (rewrite H1; reflexivity).
  rewrite E1 in G1. apply disc_rooms_shrink in G1 as [room0 [G0 H0]].
  exists room0. split; [exact G0|]. intros y Hy. apply H0. rewrite <- Hm. exact Hy.
Qed.

(** C5 (as stated, refuted): B is queued in the waiting room of R; after the
    host unlocks R, B's own second join puts it into [members] although no
    admit was sent. *)
Lemma queued_session_joins_without_admit :
  let s := fst (run 10 trace_queued init) in
  waiting_in s "R" "B" = true /\ member_of s "R" "B" = false /\
  ~ (forall tr, forallb (fun a => negb (is_admit a)) tr = true ->
        member_of (fst (run 10 tr s)) "R" "B" = false).
Proof.
  cbv zeta. split; [vm_compute; reflexivity|]. split; [vm_compute; reflexivity|].
  intros H. specialize (H trace_unlock_rejoin eq_refl). vm_compute in H. discriminate H.
Qed.

(** C5 (amended): a join into a locked room with [0 < |members| < MAX_ROOM_SIZE]
    leaves [members] and [locked] unchanged and adds the joiner to [waiting]
    under its sanitized name (no other room and no socket changes); the
    joiner receives [waiting], and every member of the room that is still
    connected receives the full updated waiting list.  A session that is not
    a member of a room becomes one only through an admit of it while it
    waits there, or through a join of its own that finds the room unlocked
    or empty. *)
Theorem locked_join_waits MAX :
  (forall self r nm s room,
     reachable MAX all_events s -> get (rooms s) r = Some room ->
     locked room = true -> 0 < size (members room) < MAX ->
     let s' := fst (handle MAX self (ev_join r nm) s) in
     let out := snd (handle MAX self (ev_join r nm) s) in
     let room' := with_waiting room
                    (set (waiting room) self
                       (safe_name nm (String.append "Guest-" (substring 0 6 self)))) in
     get (rooms s') r = Some room' /\
     (forall r', r' <> r -> get (rooms s') r' = get (rooms s) r') /\
     sockets s' = sockets s /\
     In (self, m_waiting) out /\
     (forall x, has (members room) x = true -> has (sockets s) x = true ->
        In (x, m_waiting_list (waiting room')) out)) /\
  (forall self ev s r x,
     member_of s r x = false -> member_of (fst (handle MAX self ev s)) r x = true ->
     (exists nm, ev = ev_join r nm /\ self = x /\
        (locked (room_or_new s r) = false \/ size (members (room_or_new s r)) = 0)) \/
     (ev = ev_admit r x /\ waiting_in s r x = true)).
Proof.
  split.
  - intros self r nm s room Hr Hg Hlk [Hpos Hlt].
    assert (Er : room_or_new s r = room) by (unfold room_or_new; rewrite Hg; reflexivity).
    change (handle MAX self (ev_join r nm) s) with (on_join MAX self r nm s).
    unfold on_join. cbv zeta. rewrite Er, Hlk.
    rewrite (proj2 (Nat.leb_gt _ _) Hlt), (proj2 (Nat.ltb_lt _ _) Hpos). simpl.
    split; [apply get_set_same|]. split.
    + intros r' Hne. rewrite get_set.
      destruct (String.eqb_spec r r'); [congruence|reflexivity].
    + split; [reflexivity|]. split; [left; reflexivity|].
      intros x Hx Hcx. right. apply io_to_In.
      eapply (reachable_members_joined MAX all_events s Hr); eassumption.
  - intros self ev s r x Hm Hm'.
    destruct ev as [r0 nm|p|r0| |r0 p|r0 nm|r0 e t|r0 lk|r0 id|r0 id];
      simpl in Hm'.
    + (* join *)
      unfold on_join in Hm'.
      destruct (Nat.leb MAX (size (members (room_or_new s r0)))); [simpl in Hm'; congruence|].
      destruct (locked (room_or_new s r0) && Nat.ltb 0 (size (members (room_or_new s r0))))
        eqn:Hw; simpl in Hm'; rewrite member_of_set in Hm';
        destruct (String.eqb_spec r0 r) as [<-|Hne]; try (simpl in Hm'; congruence).
      * simpl in Hm'. rewrite member_of_room_or_new in Hm. congruence.
      * simpl in Hm'. rewrite has_set in Hm'.
        destruct (String.eqb_spec self x) as [E|Hsx]; [subst x|].
        -- left. exists nm. split; [reflexivity|]. split; [reflexivity|].
           apply andb_false_iff in Hw as [Hw|Hw]; [left; exact Hw|right].
           apply Nat.ltb_ge in Hw. lia.
        -- simpl in Hm'. rewrite member_of_room_or_new in Hm. congruence.
    + (* signal *)
      unfold on_signal in Hm'. destruct (get (rooms s) (sp_roomId p)); [|simpl in Hm'; congruence].
      destruct (negb _); simpl in Hm'; congruence.
    + (* leave *)
      unfold on_leave, member_of in Hm'. simpl in Hm'.
      destruct (get (drop_member self r0 (rooms s)) r) as [room|] eqn:G; [|discriminate].
      apply drop_member_shrink in G as [room0 [G0 H0]].
      unfold member_of in Hm. rewrite G0 in Hm. apply H0 in Hm' as [Hm' _]. congruence.
    + (* disconnecting *)
      unfold member_of in Hm'.
      destruct (get (rooms (fst (on_disconnecting self s))) r) as [room|] eqn:G; [|discriminate].
      apply disconnecting_members_shrink in G as [room0 [G0 H0]].
      unfold member_of in Hm. rewrite G0 in Hm. apply H0 in Hm'. congruence.
    + (* state-update *)
      unfold on_state_update in Hm'.
      destruct (get (rooms s) r0) as [room|] eqn:G; [|simpl in Hm'; congruence].
      destruct (get (members room) self) as [cur|] eqn:Gm; [|simpl in Hm'; congruence].
      simpl in Hm'. rewrite member_of_set in Hm'.
      destruct (String.eqb_spec r0 r) as [<-|_]; [|simpl in Hm'; congruence].
      simpl in Hm'. rewrite has_set in Hm'. unfold member_of in Hm. rewrite G in Hm.
      destruct (String.eqb_spec self x) as [E|_]; [subst x|simpl in Hm'; congruence].
      unfold has in Hm. rewrite Gm in Hm. discriminate.
    + (* rename *)
      unfold on_rename in Hm'.
      destruct (get (rooms s) r0) as [room|] eqn:G; [|simpl in Hm'; congruence].
      destruct (get (members room) self) as [cur|] eqn:Gm; [|simpl in Hm'; congruence].
      simpl in Hm'. rewrite member_of_set in Hm'.
      destruct (String.eqb_spec r0 r) as [<-|_]; [|simpl in Hm'; congruence].
      simpl in Hm'. rewrite has_set in Hm'. unfold member_of in Hm. rewrite G in Hm.
      destruct (String.eqb_spec self x) as [E|_]; [subst x|simpl in Hm'; congruence].
      unfold has in Hm. rewrite Gm in Hm. discriminate.
    + (* reaction *)
      unfold on_reaction in Hm'. destruct (get (rooms s) r0), e as [e|]; try (simpl in Hm'; congruence).
      destruct (String.eqb e ""); simpl in Hm'; congruence.
    + (* lock-room *)
      unfold on_lock_room in Hm'.
      destruct (get (rooms s) r0) as [room|] eqn:G; [|simpl in Hm'; congruence].
      destruct (negb (caller_is_host room self)); [simpl in Hm'; congruence|].
      simpl in Hm'. rewrite member_of_set in Hm'.
      destruct (String.eqb_spec r0 r) as [<-|_]; [|simpl in Hm'; congruence].
      simpl in Hm'. unfold member_of in Hm. rewrite G in Hm. congruence.
    + (* admit *)
      unfold on_admit in Hm'.
      destruct (get (rooms s) r0) as [room|] eqn:G; [|simpl in Hm'; congruence].
      destruct (negb (caller_is_host room self)); [simpl in Hm'; congruence|].
      destruct (get (waiting room) id) as [wname|] eqn:Gw; [|simpl in Hm'; congruence].
      destruct (get (sockets s) id); [|simpl in Hm'; congruence].
      simpl in Hm'. rewrite member_of_set in Hm'.
      destruct (String.eqb_spec r0 r) as [<-|_]; [|simpl in Hm'; congruence].
      simpl in Hm'. rewrite has_set in Hm'. unfold member_of in Hm. rewrite G in Hm.
      destruct (String.eqb_spec id x) as [E|_]; [subst x|simpl in Hm'; congruence].
      right. split; [reflexivity|]. unfold waiting_in, has. rewrite G, Gw. reflexivity.
    + (* deny *)
      unfold on_deny in Hm'.
      destruct (get (rooms s) r0) as [room|] eqn:G; [|simpl in Hm'; congruence].
      destruct (negb (caller_is_host room self)); [simpl in Hm'; congruence|].
      destruct (has (waiting room) id); [|simpl in Hm'; congruence].
      simpl in Hm'. rewrite member_of_set in Hm'.
      destruct (String.eqb_spec r0 r) as [<-|_]; [|simpl in Hm'; congruence].
      simpl in Hm'. unfold member_of in Hm. rewrite G in Hm. congruence.
Qed.

Lemma locked_join_waits_witness :
  In ("A", m_waiting_list [("B", "bob")])
     (snd (handle 10 "B" (ev_join "R" (Some "bob")) locked_room)) /\
  ((exists nm, ev_join "R" None = ev_join "R" nm /\ "B" = "B" /\
      (locked (room_or_new unlocked_again "R") = false
       \/ size (members (room_or_new unlocked_again "R")) = 0))
   \/ (ev_join "R" None = ev_admit "R" "B" /\ waiting_in unlocked_again "R" "B" = true)).
Proof.
  destruct (locked_join_waits 10) as [Ha Hb]. split.
  - assert (Hr : reachable 10 all_events locked_room)
      by (apply run_reachable; [constructor|vm_compute; reflexivity]).
    pose proof (Ha "B" "R" (Some "bob") locked_room (room_or_new locked_room "R") Hr)
      as H.
    assert (H1 : get (rooms locked_room) "R" = Some (room_or_new locked_room "R"))
      by (vm_compute; reflexivity).
    assert (H2 : locked (room_or_new locked_room "R") = true) by (vm_compute; reflexivity).
    assert (H3 : 0 < size (members (room_or_new locked_room "R")) < 10)
      by (vm_compute; lia).
    specialize (H H1 H2 H3). cbv zeta in H.
    destruct H as [_ [_ [_ [_ Hall]]]].
    assert (H4 : has (members (room_or_new locked_room "R")) "A" = true)
      by (vm_compute; reflexivity).
    assert (H5 : has (sockets locked_room) "A" = true) by (vm_compute; reflexivity).
    specialize (Hall "A" H4 H5). vm_compute in Hall. vm_compute. exact Hall.
  - apply (Hb "B" (ev_join "R" None) unlocked_again "R" "B"); vm_compute; reflexivity.
Defined.

(** ** C1 *)

(** C1 (code defect): admit performs no capacity check.  With
    [MAX_ROOM_SIZE = 2], two sessions queued in a locked room are both
    admitted and the room reaches 3 members. *)
Theorem admit_exceeds_capacity :
  let s := fst (run 2 trace_admit_over init) in
  reachable 2 all_events s /\ size (members (room_or_new s "R")) = 3.
Proof.
  cbv zeta. split.
  - apply run_reachable; [constructor|vm_compute; reflexivity].
  - vm_compute. reflexivity.
Qed.

(** ** C6 *)

(** C6 (code defect): [io.to(to)] addresses the socket.io room named [to];
    a session C that joined a room whose id is B's session id receives the
    signal A addressed to B. *)
Theorem signal_reaches_shadow_room :
  snd (run 10 [a_event "A" (ev_signal sig_to_B)] (fst (run 10 trace_shadow_room init)))
  = [("B", m_signal sig_to_B "A"); ("C", m_signal sig_to_B "A")].
Proof. vm_compute. reflexivity. Qed.

(** ** C7 *)

(** C7 (code defect): explicit leave does not remove the session from
    [waiting] and sends no waiting list; it sends [peer-left] although the
    session was no member.  Disconnect does remove it from [waiting]. *)
Theorem leave_keeps_waiting_entry :
  let s := fst (run 10 trace_queued init) in
  let '(s1, out1) := run 10 [a_event "B" (ev_leave "R")] s in
  let '(s2, out2) := run 10 [a_event "B" ev_disconnecting] s in
  waiting_in s "R" "B" = true /\
  waiting_in s1 "R" "B" = true /\ out1 = [("A", m_peer_left "B")] /\
  waiting_in s2 "R" "B" = false /\
  out2 = [("A", m_waiting_list [])].
Proof. vm_compute. repeat split. Qed.

(** ** C8 *)

(** C8 (code defect): state-update merges the whole partial, so a guest that
    sends [{ role: "host", name: "Boss" }] becomes a second Host and is
    renamed. *)
Theorem state_update_overwrites_role_and_name :
  let s := fst (run 10 two_members init) in
  let s1 := fst (run 10 [a_event "B" (ev_state_update "R" promote)] s) in
  role_of s "R" "B" = Some guest /\
  role_of s1 "R" "B" = Some host /\
  option_map name (get (members (room_or_new s1 "R")) "B") = Some "Boss" /\
  count_hosts (members (room_or_new s1 "R")) = 2.
Proof. vm_compute. repeat split. Qed.

(** ** C9 *)

(** C9 (code defect): the reaction is sent with [io.to(roomId)], which
    includes the sending member. *)
Theorem reaction_echoed_to_sender :
  snd (run 10 [a_event "A" (ev_reaction "R" (Some "x") None)] (fst (run 10 two_members init)))
  = [("A", m_reaction "A" "x"); ("B", m_reaction "A" "x")].
Proof. vm_compute. reflexivity. Qed.

(** * Further properties of the code *)

(** ** Emission *)

Lemma In_io_to_m {M : Type} sk n (m : M) y m' :
  In (y, m') (io_to_m sk n m) <->
  m' = m /\ exists rs, In (y, rs) sk /\ in_room n rs = true.
Proof.
  unfold io_to_m. rewrite in_map_iff. split.
  - intros [[z rs] [E Hin]]. simpl in E. injection E as E1 E2. subst.
    apply filter_In in Hin as [Hin Hr]. split; [reflexivity|]. exists rs. auto.
  - intros [-> [rs [Hin Hr]]]. exists (y, rs). split; [reflexivity|].
    apply filter_In. auto.
Qed.

Lemma In_socket_to_m {M : Type} sk self n (m : M) y m' :
  In (y, m') (socket_to_m sk self n m) <->
  m' = m /\ y <> self /\ exists rs, In (y, rs) sk /\ in_room n rs = true.
Proof.
  unfold socket_to_m. rewrite in_map_iff. split.
  - intros [[z rs] [E Hin]]. simpl in E. injection E as E1 E2. subst.
    apply filter_In in Hin as [Hin Hr]. simpl in Hr.
    apply andb_true_iff in Hr as [Hs Hr]. apply negb_true_iff, String.eqb_neq in Hs.
    split; [reflexivity|]. split; [exact Hs|]. exists rs. auto.
  - intros [-> [Hs [rs [Hin Hr]]]]. exists (y, rs). split; [reflexivity|].
    apply filter_In. split; [exact Hin|]. simpl.
    apply andb_true_iff. split; [apply negb_true_iff, String.eqb_neq; exact Hs|exact Hr].
Qed.

Lemma socket_to_In sk self n m y :
  joined sk y n = true -> y <> self -> In (y, m) (socket_to sk self n m).
Proof.
  unfold joined, socket_to. destruct (get sk y) as [rs|] eqn:G; [|discriminate].
  intros H Hne. apply in_map_iff. exists (y, rs). split; [reflexivity|].
  apply filter_In. split; [apply get_In; exact G|]. simpl.
  apply andb_true_iff. split; [apply negb_true_iff, String.eqb_neq; exact Hne|exact H].
Qed.

(** ** [trim] and [slice] *)

Lemma str_append_assoc a b c :
  String.append a (String.append b c) = String.append (String.append a b) c.
Proof. induction a as [|x a IH]; simpl; [reflexivity|]. rewrite IH. reflexivity. Qed.

Lemma trim_end_cons c r :
  trim_end (String c r) =
  match trim_end r with
  | EmptyString => if js_space c then EmptyString else String c EmptyString
  | r' => String c r'
  end.
Proof. reflexivity. Qed.

Lemma trim_end_nonspace c r :
  js_space c = false -> exists r', trim_end (String c r) = String c r'.
Proof.
  intros H. rewrite trim_end_cons.
  destruct (trim_end r) as [|a r0]; [rewrite H|]; eauto.
Qed.

Lemma trim_start_shape s :
  trim_start s = EmptyString \/ exists c r, trim_start s = String c r /\ js_space c = false.
Proof.
  induction s as [|c r IH]; simpl; [auto|].
  destruct (js_space c) eqn:E; [exact IH|right; eauto].
Qed.

Lemma trim_shape s :
  trim s = EmptyString \/ exists c r, trim s = String c r /\ js_space c = false.
Proof.
  unfold trim. destruct (trim_start_shape s) as [->|[c [r [-> Hc]]]]; [auto|].
  right. destruct (trim_end_nonspace c r Hc) as [r' ->]. eauto.
Qed.

Lemma trim_end_idem s : trim_end (trim_end s) = trim_end s.
Proof.
  induction s as [|c r IH]; [reflexivity|].
  rewrite (trim_end_cons c r). destruct (trim_end r) as [|a r0] eqn:E.
  - destruct (js_space c) eqn:Ec; [reflexivity|].
    rewrite trim_end_cons. simpl. rewrite Ec. reflexivity.
  - rewrite trim_end_cons, IH. reflexivity.
Qed.

Lemma trim_idem s : trim (trim s) = trim s.
Proof.
  unfold trim. destruct (trim_start_shape s) as [H|[c [r [H Hc]]]]; rewrite H;
    [reflexivity|].
  destruct (trim_end_nonspace c r Hc) as [r' E]. rewrite E.
  cbn [trim_start]. rewrite Hc. rewrite <- E. apply trim_end_idem.
Qed.

Lemma all_space_trim_start s : all_space (trim_start s) = all_space s.
Proof.
  induction s as [|c r IH]; simpl; [reflexivity|].
  destruct (js_space c) eqn:E; simpl; [exact IH|rewrite E; reflexivity].
Qed.

Lemma trim_end_empty s : trim_end s = EmptyString <-> all_space s = true.
Proof.
  induction s as [|c r IH]; [simpl; tauto|].
  rewrite trim_end_cons. cbn [all_space]. destruct (trim_end r) as [|a r0] eqn:E.
  - destruct (js_space c); simpl; [exact IH|split; discriminate].
  - split; [discriminate|]. intros H. apply andb_true_iff in H as [_ H].
    apply IH in H. discriminate H.
Qed.

Lemma trim_empty s : trim s = EmptyString <-> all_space s = true.
Proof. unfold trim. rewrite trim_end_empty, all_space_trim_start. reflexivity. Qed.

Lemma trim_start_split s : exists a, all_space a = true /\ s = String.append a (trim_start s).
Proof.
  induction s as [|c r [a [Ha E]]]; [exists ""; auto|].
  simpl. destruct (js_space c) eqn:Ec.
  - exists (String c a). simpl. rewrite Ec, Ha. split; [reflexivity|].
    rewrite <- E. reflexivity.
  - exists "". auto.
Qed.

Lemma trim_end_split s : exists b, s = String.append (trim_end s) b.
Proof.
  induction s as [|c r [b E]]; [exists ""; reflexivity|].
  rewrite trim_end_cons. destruct (trim_end r) as [|a r0].
  - destruct (js_space c).
    + exists (String c r). reflexivity.
    + exists b. simpl in *. rewrite E at 1. reflexivity.
  - exists b. simpl in *. rewrite E at 1. reflexivity.
Qed.

Lemma trim_split s : exists a b, all_space a = true /\
  s = String.append a (String.append (trim s) b).
Proof.
  destruct (trim_start_split s) as [a [Ha Ea]].
  destruct (trim_end_split (trim_start s)) as [b Eb].
  exists a, b. split; [exact Ha|]. unfold trim. rewrite <- Eb. exact Ea.
Qed.

Lemma substring_prefix n s : exists rest, s = String.append (substring 0 n s) rest.
Proof.
  revert s; induction n as [|n IH]; intros [|c r]; simpl; try (eexists; reflexivity).
  destruct (IH r) as [rest E]. exists rest. rewrite E at 1. reflexivity.
Qed.

Lemma substring_length n s : String.length (substring 0 n s) <= n.
Proof.
  revert s; induction n as [|n IH]; intros [|c r]; simpl; try lia.
  specialize (IH r). lia.
Qed.

Lemma skipn_app_le {A : Type} k (l l' : list A) :
  k <= length l -> skipn k (l ++ l') = skipn k l ++ l'.
Proof.
  revert l; induction k as [|k IH]; intros [|x l] H; simpl in *; try reflexivity; [lia|].
  apply IH. lia.
Qed.

Lemma skipn_suffix {A : Type} k (l : list A) : exists d, l = d ++ skipn k l.
Proof. exists (firstn k l). symmetry. apply firstn_skipn. Qed.

(** The payload of every chat the server emits. *)
Lemma on_chat_payload self r t to now s y m :
  In (y, m) (snd (on_chat self r (Some t) to now s)) ->
  trim t <> EmptyString /\
  m = {| c_from := self; c_text := substring 0 2000 (trim t); c_ts := now |}.
Proof.
  unfold on_chat. destruct (get (rooms s) r) as [room|]; simpl; [|intros []].
  destruct (String.eqb_spec (trim t) "") as [E|E]; simpl; [intros []|].
  destruct to as [x|].
  - destruct (negb (String.eqb x "") && has (members room) x); simpl; intros H;
      [apply In_io_to_m in H|apply In_socket_to_m in H]; destruct H as [-> _]; auto.
  - simpl. intros H. apply In_socket_to_m in H. destruct H as [-> _]. auto.
Qed.

(** X1: a chat for a room that is not in the table, with a text that is not
    a string, or with a text of white space only is dropped: no message is
    sent. *)
Theorem chat_dropped self r text to now s :
  (get (rooms s) r = None \/ text = None \/
   exists t, text = Some t /\ all_space t = true) ->
  on_chat self r text to now s = (s, []).
Proof.
  intros H. unfold on_chat.
  destruct (get (rooms s) r) as [room|]; [|reflexivity].
  destruct text as [t|]; [|reflexivity].
  destruct H as [H|[H|[t' [H Hs]]]]; try discriminate.
  injection H as <-. apply trim_empty in Hs. rewrite Hs. reflexivity.
Qed.

Lemma chat_dropped_witness :
  all_space "  " = true /\
  on_chat "A" "R" (Some "  ") None 7 (fst (run 10 two_members init))
  = (fst (run 10 two_members init), []).
Proof.
  split; [vm_compute; reflexivity|].
  apply chat_dropped. right. right. exists "  ". split; [reflexivity|vm_compute; reflexivity].
Defined.

(** X2: every chat message the server emits carries the sender's id and
    [Date.now()], and a non-empty text of at most 2000 characters that does
    not start with white space and that occurs in the sent text right after
    a run of white space. *)
Theorem chat_payload_text self r t to now s y m :
  In (y, m) (snd (on_chat self r (Some t) to now s)) ->
  c_from m = self /\ c_ts m = now /\
  String.length (c_text m) <= 2000 /\
  (exists c rest, c_text m = String c rest /\ js_space c = false) /\
  (exists a b, all_space a = true /\ t = String.append a (String.append (c_text m) b)).
Proof.
  intros H. apply on_chat_payload in H as [Hne ->]. simpl.
  split; [reflexivity|]. split; [reflexivity|].
  split; [apply substring_length|]. split.
  - destruct (trim_shape t) as [E|[c [r' [E Hc]]]]; [contradiction|].
    rewrite E. simpl. eauto.
  - destruct (trim_split t) as [a [b [Ha Et]]].
    destruct (substring_prefix 2000 (trim t)) as [rest Er].
    exists a, (String.append rest b). split; [exact Ha|].
    rewrite Et at 1. rewrite Er at 1. rewrite <- str_append_assoc. reflexivity.
Qed.

Lemma chat_payload_text_witness :
  In ("B", {| c_from := "A"; c_text := "hi"; c_ts := 7 |})
     (snd (on_chat "A" "R" (Some " hi ") None 7 (fst (run 10 two_members init)))) /\
  c_from {| c_from := "A"; c_text := "hi"; c_ts := 7 |} = "A" /\
  c_ts {| c_from := "A"; c_text := "hi"; c_ts := 7 |} = 7 /\
  String.length (c_text {| c_from := "A"; c_text := "hi"; c_ts := 7 |}) <= 2000 /\
  (exists c rest, c_text {| c_from := "A"; c_text := "hi"; c_ts := 7 |} = String c rest
                  /\ js_space c = false) /\
  (exists a b, all_space a = true /\
     " hi " = String.append a (String.append (c_text {| c_from := "A"; c_text := "hi"; c_ts := 7 |}) b)).
Proof.
  assert (H : In ("B", {| c_from := "A"; c_text := "hi"; c_ts := 7 |})
     (snd (on_chat "A" "R" (Some " hi ") None 7 (fst (run 10 two_members init)))))
    by (vm_compute; left; reflexivity).
  split; [exact H|]. exact (chat_payload_text _ _ _ _ _ _ _ _ H).
Defined.

(** X3: routing of a chat with a non-blank text in an existing room.  When
    [to] is absent, empty or not a member of the room, the message goes to
    every other connected socket that has joined the socket.io room of the
    room, and never to the sender: a private message for a non-member is
    shown to the whole room.  When [to] is a member, the message goes to
    every connected socket that has joined the socket.io room named [to]. *)
Theorem chat_routing self r t to now s room y m :
  get (rooms s) r = Some room -> all_space t = false ->
  let p := {| c_from := self; c_text := substring 0 2000 (trim t); c_ts := now |} in
  let out := snd (on_chat self r (Some t) to now s) in
  ((match to with Some x => String.eqb x "" || negb (has (members room) x)
                | None => true end = true) ->
   (In (y, m) out <-> m = p /\ y <> self /\
      exists rs, In (y, rs) (sockets s) /\ in_room r rs = true)) /\
  (forall x, to = Some x -> x <> "" -> has (members room) x = true ->
   (In (y, m) out <-> m = p /\ exists rs, In (y, rs) (sockets s) /\ in_room x rs = true)).
Proof.
  intros G Hs p out.
  assert (Ht : String.eqb (trim t) "" = false).
  { apply String.eqb_neq. intros E. apply trim_empty in E. congruence. }
  unfold out, on_chat. rewrite G, Ht. split.
  - intros Hto. destruct to as [x|]; [|apply In_socket_to_m].
    destruct (String.eqb x "") eqn:Ex; simpl; [apply In_socket_to_m|].
    simpl in Hto. apply negb_true_iff in Hto. rewrite Hto. simpl. apply In_socket_to_m.
  - intros x -> Hx Hm. apply String.eqb_neq in Hx. rewrite Hx, Hm. simpl.
    apply In_io_to_m.
Qed.

Lemma chat_routing_witness :
  get (rooms (fst (run 10 two_members init))) "R"
    = Some (room_or_new (fst (run 10 two_members init)) "R") /\
  all_space "hi" = false /\
  ((match Some "Z" with Some x => String.eqb x "" ||
        negb (has (members (room_or_new (fst (run 10 two_members init)) "R")) x)
      | None => true end = true) ->
   (In ("B", {| c_from := "A"; c_text := "hi"; c_ts := 1 |})
       (snd (on_chat "A" "R" (Some "hi") (Some "Z") 1 (fst (run 10 two_members init)))) <->
    {| c_from := "A"; c_text := "hi"; c_ts := 1 |} =
      {| c_from := "A"; c_text := substring 0 2000 (trim "hi"); c_ts := 1 |} /\
    "B" <> "A" /\
    exists rs, In ("B", rs) (sockets (fst (run 10 two_members init))) /\ in_room "R" rs = true)).
Proof.
  assert (G : get (rooms (fst (run 10 two_members init))) "R"
                = Some (room_or_new (fst (run 10 two_members init)) "R"))
    by (vm_compute; reflexivity).
  assert (Hs : all_space "hi" = false) by (vm_compute; reflexivity).
  split; [exact G|]. split; [exact Hs|].
  exact (proj1 (chat_routing "A" "R" "hi" (Some "Z") 1 _ _ "B"
                  {| c_from := "A"; c_text := "hi"; c_ts := 1 |} G Hs)).
Defined.

(** X4: the client's [sendChat] trims the input before it emits [chat]; the
    server's second trim changes nothing, so the text the other members
    receive is the sender's locally listed text cut to 2000 characters. *)
Theorem sent_chat_received selfId input now msgs text msgs' self r now' s room :
  send_chat selfId input now msgs = Some (text, msgs') ->
  get (rooms s) r = Some room ->
  (exists pre m0, msgs' = pre ++ [m0] /\ c_text m0 = text) /\
  snd (on_chat self r (Some text) None now' s) =
  socket_to_m (sockets s) self r
    {| c_from := self; c_text := substring 0 2000 text; c_ts := now' |}.
Proof.
  unfold send_chat. destruct (String.eqb_spec (trim input) "") as [E|E]; [discriminate|].
  intros H G. injection H as <- <-. split.
  - unfold push_message, slice_last.
    rewrite skipn_app_le by (rewrite length_app; cbn [length]; lia).
    eexists; eexists; split; reflexivity.
  - unfold on_chat. rewrite G, trim_idem.
    destruct (String.eqb_spec (trim input) "") as [E'|_]; [contradiction|]. reflexivity.
Qed.

Lemma sent_chat_received_witness :
  send_chat "A" " hi " 3 [] = Some ("hi", [{| c_from := "A"; c_text := "hi"; c_ts := 3 |}]) /\
  get (rooms (fst (run 10 two_members init))) "R"
    = Some (room_or_new (fst (run 10 two_members init)) "R") /\
  ((exists pre m0, [{| c_from := "A"; c_text := "hi"; c_ts := 3 |}] = pre ++ [m0]
                   /\ c_text m0 = "hi") /\
   snd (on_chat "A" "R" (Some "hi") None 4 (fst (run 10 two_members init))) =
   socket_to_m (sockets (fst (run 10 two_members init))) "A" "R"
     {| c_from := "A"; c_text := substring 0 2000 "hi"; c_ts := 4 |}).
Proof.
  assert (H1 : send_chat "A" " hi " 3 []
               = Some ("hi", [{| c_from := "A"; c_text := "hi"; c_ts := 3 |}]))
    by (vm_compute; reflexivity).
  assert (H2 : get (rooms (fst (run 10 two_members init))) "R"
                 = Some (room_or_new (fst (run 10 two_members init)) "R"))
    by (vm_compute; reflexivity).
  split; [exact H1|]. split; [exact H2|].
  exact (sent_chat_received "A" " hi " 3 [] "hi" _ "A" "R" 4 _ _ H1 H2).
Defined.

(** X5: the client's chat list keeps the 200 most recent messages: after
    adding [m] it holds [min 200 (n + 1)] messages, is a suffix of the old
    list followed by [m], and ends with [m]. *)
Theorem push_message_last_200 prev m :
  length (push_message prev m) = Nat.min 200 (S (length prev)) /\
  (exists dropped, prev ++ [m] = dropped ++ push_message prev m) /\
  (exists pre, push_message prev m = pre ++ [m]).
Proof.
  unfold push_message, slice_last. split; [|split].
  - rewrite length_skipn, length_app. cbn [length]. lia.
  - apply skipn_suffix.
  - rewrite skipn_app_le by (rewrite length_app; cbn [length]; lia). eauto.
Qed.

(** ** Members, names and notifications of the final variant *)

Lemma In_set_inv {V : Type} (m : JsMap.t V) k w y v :
  In (y, v) (set m k w) -> (y, v) = (k, w) \/ In (y, v) m.
Proof.
  induction m as [|[k0 v0] m IH]; simpl.
  - intros [H|[]]. left; congruence.
  - destruct (String.eqb k0 k); simpl; intros [H|H].
    + left; congruence.
    + right; right; exact H.
    + right; left; exact H.
    + destruct (IH H) as [H'|H']; [left; exact H'|right; right; exact H'].
Qed.

Lemma In_set_other {V : Type} (m : JsMap.t V) k w y v :
  In (y, v) m -> y <> k -> In (y, v) (set m k w).
Proof.
  induction m as [|[k0 v0] m IH]; simpl; [intros []|].
  intros [H|H] Hne; destruct (String.eqb_spec k0 k) as [->|Hk]; simpl.
  - injection H as E1 E2. congruence.
  - left; exact H.
  - right; exact H.
  - right; apply IH; assumption.
Qed.

Lemma In_peers_of_set ms x st y v :
  In (y, v) (peers_of (set ms x st) x) <-> y <> x /\ In (y, v) ms.
Proof.
  unfold peers_of. rewrite filter_In. simpl. split.
  - intros [Hin Hne]. apply negb_true_iff, String.eqb_neq in Hne.
    destruct (In_set_inv _ _ _ _ _ Hin) as [E|E]; [injection E as E1 E2; congruence|].
    auto.
  - intros [Hne Hin]. split; [apply In_set_other; assumption|].
    apply negb_true_iff, String.eqb_neq. exact Hne.
Qed.

Lemma room_or_new_set rs r room' sk :
  room_or_new {| rooms := set rs r room'; sockets := sk |} r = room'.
Proof. unfold room_or_new. simpl. rewrite get_set_same. reflexivity. Qed.

Lemma safe_name_shape nm fb :
  safe_name nm fb = fb \/
  exists n rest, nm = Some n /\ n = String.append (safe_name nm fb) rest /\
                 String.length (safe_name nm fb) <= 64.
Proof.
  unfold safe_name. destruct nm as [n|]; [|left; reflexivity].
  destruct (String.eqb n ""); [left; reflexivity|].
  destruct (String.eqb (substring 0 64 n) "") eqn:E; [left; reflexivity|].
  right. destruct (substring_prefix 64 n) as [rest Er].
  exists n, rest. split; [reflexivity|]. split; [exact Er|apply substring_length].
Qed.

(** X6: a rename by a member of an existing room replaces only that
    member's name, by the given name cut to 64 characters or, when the name
    is missing or empty, by its current name; role and the other fields stay.
    The other members and the other rooms are unchanged, and every connected
    member of the room, the sender included, receives the new name. *)
Theorem rename_member MAX ok s self r nm room cur :
  reachable MAX ok s ->
  get (rooms s) r = Some room -> get (members room) self = Some cur ->
  get (members (room_or_new (fst (on_rename self r nm s)) r)) self =
    Some {| name := safe_name nm (name cur); muted := muted cur; videoOn := videoOn cur;
            handRaised := handRaised cur; sharing := sharing cur; role := role cur |} /\
  (forall y, y <> self ->
     get (members (room_or_new (fst (on_rename self r nm s)) r)) y = get (members room) y) /\
  (forall r', r' <> r -> get (rooms (fst (on_rename self r nm s))) r' = get (rooms s) r') /\
  (safe_name nm (name cur) = name cur \/
   exists n rest, nm = Some n /\ n = String.append (safe_name nm (name cur)) rest /\
                  String.length (safe_name nm (name cur)) <= 64) /\
  (forall y, has (members room) y = true -> has (sockets s) y = true ->
     In (y, m_state_update self (name_only (safe_name nm (name cur))))
        (snd (on_rename self r nm s))).
Proof.
  intros Hr G Hm. pose proof (reachable_members_joined _ _ _ Hr) as HJ.
  unfold on_rename. rewrite G, Hm. cbn [fst snd].
  split; [|split; [|split; [|split]]].
  - rewrite room_or_new_set. cbn [members with_members]. apply get_set_same.
  - intros y Hy. rewrite room_or_new_set. cbn [members with_members].
    rewrite get_set. destruct (String.eqb_spec self y); [congruence|reflexivity].
  - intros r' Hr'. cbn [rooms]. rewrite get_set.
    destruct (String.eqb_spec r r'); [congruence|reflexivity].
  - apply safe_name_shape.
  - intros y Hy Hs. apply io_to_In. exact (HJ r room y G Hy Hs).
Qed.

Lemma rename_member_witness :
  let s := fst (run 10 two_members init) in
  let room := room_or_new s "R" in
  let cur := fresh_state "Guest-B" guest in
  reachable 10 all_events s /\ get (rooms s) "R" = Some room /\
  get (members room) "B" = Some cur /\
  get (members (room_or_new (fst (on_rename "B" "R" (Some "bob") s)) "R")) "B" =
    Some {| name := safe_name (Some "bob") (name cur); muted := muted cur;
            videoOn := videoOn cur; handRaised := handRaised cur;
            sharing := sharing cur; role := role cur |}.
Proof.
  intros s room cur.
  assert (Hr : reachable 10 all_events s)
    by (apply run_reachable; [constructor|vm_compute; reflexivity]).
  assert (G : get (rooms s) "R" = Some room) by (vm_compute; reflexivity).
  assert (Hm : get (members room) "B" = Some cur) by (vm_compute; reflexivity).
  split; [exact Hr|]. split; [exact G|]. split; [exact Hm|].
  exact (proj1 (rename_member 10 all_events s "B" "R" (Some "bob") room cur Hr G Hm)).
Defined.

(** X7: lock-room, admit and deny sent by a session that is not the Host of
    the room (a guest, a non-member, or any session when the room is not in
    the table) change nothing and send nothing. *)
Theorem host_controls_need_host self r lk id s :
  caller_is_host (room_or_new s r) self = false ->
  on_lock_room self r lk s = (s, []) /\ on_admit self r id s = (s, []) /\
  on_deny self r id s = (s, []).
Proof.
  unfold room_or_new, on_lock_room, on_admit, on_deny.
  destruct (get (rooms s) r) as [room|]; [|auto].
  intros H. rewrite H. split; [|split]; reflexivity.
Qed.

Lemma host_controls_need_host_witness :
  caller_is_host (room_or_new (fst (run 10 two_members init)) "R") "B" = false /\
  on_lock_room "B" "R" true (fst (run 10 two_members init))
    = (fst (run 10 two_members init), []).
Proof.
  assert (H : caller_is_host (room_or_new (fst (run 10 two_members init)) "R") "B" = false)
    by (vm_compute; reflexivity).
  split; [exact H|].
  exact (proj1 (host_controls_need_host "B" "R" true "A" _ H)).
Defined.

Lemma drop_member_mem x n rs r :
  mem_rs (drop_member x n rs) r x = mem_rs rs r x && negb (String.eqb n r).
Proof.
  unfold drop_member, mem_rs. destruct (get rs n) as [room|] eqn:G.
  - destruct (Nat.eqb (size (delete (members room) x)) 0).
    + rewrite get_delete. destruct (String.eqb_spec n r) as [<-|Hne].
      * rewrite G, andb_false_r. reflexivity.
      * rewrite andb_true_r. reflexivity.
    + rewrite get_set. destruct (String.eqb_spec n r) as [<-|Hne].
      * rewrite G, andb_false_r. cbn [members with_members].
        rewrite has_delete, String.eqb_refl. reflexivity.
      * rewrite andb_true_r. reflexivity.
  - destruct (String.eqb_spec n r) as [<-|Hne].
    + rewrite G. reflexivity.
    + rewrite andb_true_r. reflexivity.
Qed.

Lemma disc_rooms_mem x sk names : forall rs r,
  mem_rs (fst (disc_rooms x sk names rs)) r x =
  mem_rs rs r x && negb (negb (String.eqb r x) && in_room r names).
Proof.
  induction names as [|n ns IH]; intros rs r; simpl.
  - unfold in_room. simpl. rewrite andb_false_r. simpl. rewrite andb_true_r. reflexivity.
  - destruct (String.eqb_spec n x) as [->|Hnx].
    + rewrite IH. unfold in_room. simpl.
      destruct (String.eqb_spec r x) as [->|Hrx]; simpl; reflexivity.
    + destruct (disc_rooms x sk ns (drop_member x n rs)) as [rs' out'] eqn:Hd. simpl.
      specialize (IH (drop_member x n rs) r). rewrite Hd in IH. simpl in IH.
      rewrite IH, drop_member_mem. unfold in_room. simpl.
      rewrite (String.eqb_sym n r). destruct (String.eqb r n) eqn:Ern.
      * apply String.eqb_eq in Ern. subst r.
        rewrite (proj2 (String.eqb_neq _ _) Hnx). simpl.
        destruct (mem_rs rs n x); reflexivity.
      * simpl. destruct (mem_rs rs r x); reflexivity.
Qed.

(** X8: in a reachable state, a disconnecting session is afterwards no
    longer connected, waits in no room, and is a member of no room, except
    the room whose id equals its own session id: the loop skips that name,
    so a member of such a room stays in it. *)
Theorem disconnect_cleanup MAX ok s x :
  reachable MAX ok s -> has (sockets s) x = true ->
  has (sockets (fst (on_disconnecting x s))) x = false /\
  (forall r, waiting_in (fst (on_disconnecting x s)) r x = false) /\
  (forall r, member_of (fst (on_disconnecting x s)) r x = String.eqb r x && member_of s r x).
Proof.
  intros Hr Hx. pose proof (reachable_members_joined _ _ _ Hr) as HJ.
  set (names := match get (sockets s) x with Some rs => rs | None => [] end).
  assert (M1 : forall r, mem_rs (fst (disc_rooms x (sockets s) names (rooms s))) r x =
                         mem_rs (rooms s) r x && negb (negb (String.eqb r x) && in_room r names))
    by (intros r; apply disc_rooms_mem).
  unfold on_disconnecting. fold names.
  destruct (disc_rooms x (sockets s) names (rooms s)) as [rs1 out1] eqn:H1.
  destruct (disc_waiting x (sockets s) rs1) as [rs2 out2] eqn:H2. cbn [fst rooms sockets].
  cbn [fst] in M1.
  assert (E2 : rs2 = fst (disc_waiting x (sockets s) rs1)) by (rewrite H2; reflexivity).
  split; [|split].
  - rewrite has_delete, String.eqb_refl. reflexivity.
  - intros r. unfold waiting_in. cbn [rooms]. rewrite E2, disc_waiting_get.
    destruct (get rs1 r) as [room|]; simpl; [|reflexivity].
    destruct (has (waiting room) x) eqn:W; simpl; [|exact W].
    rewrite has_delete, String.eqb_refl. reflexivity.
  - intros r. transitivity (mem_rs rs1 r x).
    + unfold member_of, mem_rs. cbn [rooms]. rewrite E2, disc_waiting_get.
      destruct (get rs1 r) as [room1|]; simpl; [|reflexivity].
      destruct (has (waiting room1) x); reflexivity.
    + rewrite M1. change (member_of s r x) with (mem_rs (rooms s) r x).
      destruct (String.eqb_spec r x) as [->|Hrx]; simpl; [rewrite andb_true_r; reflexivity|].
      destruct (mem_rs (rooms s) r x) eqn:Hm; simpl; [|reflexivity].
      unfold mem_rs in Hm. destruct (get (rooms s) r) as [room|] eqn:G; [|discriminate].
      specialize (HJ r room x G Hm Hx). unfold joined in HJ. unfold names.
      destruct (get (sockets s) x); [rewrite HJ; reflexivity|discriminate].
Qed.

Lemma disconnect_cleanup_witness :
  let s := fst (run 10 [a_connect "A"; a_event "A" (ev_join "A" None)] init) in
  reachable 10 all_events s /\ has (sockets s) "A" = true /\
  member_of (fst (on_disconnecting "A" s)) "A" "A" = String.eqb "A" "A" && member_of s "A" "A".
Proof.
  intros s.
  assert (Hr : reachable 10 all_events s)
    by (apply run_reachable; [constructor|vm_compute; reflexivity]).
  assert (Hx : has (sockets s) "A" = true) by (vm_compute; reflexivity).
  split; [exact Hr|]. split; [exact Hx|].
  exact (proj2 (proj2 (disconnect_cleanup 10 all_events s "A" Hr Hx)) "A").
Defined.

(** X9: in a reachable state, a join that enters the room (it has fewer
    than [MAX_ROOM_SIZE] members and is unlocked or empty) stores the joiner
    and answers it with [joined], whose peers are exactly the other entries
    of the room with their states; every other connected member of the room
    receives [peer-joined] with the joiner's state. *)
Theorem join_notifies MAX ok s x r nm s' out :
  reachable MAX ok s ->
  size (members (room_or_new s r)) < MAX ->
  (locked (room_or_new s r) = false \/ size (members (room_or_new s r)) = 0) ->
  on_join MAX x r nm s = (s', out) ->
  exists st,
    get (members (room_or_new s' r)) x = Some st /\
    In (x, m_joined x (role st) (peers_of (members (room_or_new s' r)) x)) out /\
    (forall y v, In (y, v) (peers_of (members (room_or_new s' r)) x) <->
                 y <> x /\ In (y, v) (members (room_or_new s r))) /\
    (forall y, y <> x -> has (members (room_or_new s r)) y = true ->
               has (sockets s) y = true -> In (y, m_peer_joined x st) out).
Proof.
  intros Hr Hlt Hlk E. pose proof (reachable_members_joined _ _ _ Hr) as HJ.
  assert (L : Nat.leb MAX (size (members (room_or_new s r))) = false)
    by (apply Nat.leb_gt; exact Hlt).
  assert (K : locked (room_or_new s r) && Nat.ltb 0 (size (members (room_or_new s r))) = false)
    by (destruct Hlk as [H|H]; rewrite H; [reflexivity|apply andb_false_r]).
  unfold on_join in E. rewrite L, K in E. injection E as <- <-.
  eexists. rewrite room_or_new_set. cbn [members with_members].
  split; [apply get_set_same|]. split; [left; reflexivity|]. split.
  - intros y v. apply In_peers_of_set.
  - intros y Hy Hm Hs. right. apply socket_to_In; [|exact Hy].
    apply joined_sock_join_mono. unfold room_or_new in Hm.
    destruct (get (rooms s) r) as [room|] eqn:G; [|discriminate].
    exact (HJ r room y G Hm Hs).
Qed.

Lemma join_notifies_witness :
  let s := fst (run 10 [a_connect "A"; a_connect "B"; a_event "A" (ev_join "R" None)] init) in
  reachable 10 all_events s /\
  size (members (room_or_new s "R")) < 10 /\
  (locked (room_or_new s "R") = false \/ size (members (room_or_new s "R")) = 0) /\
  on_join 10 "B" "R" None s = on_join 10 "B" "R" None s /\
  exists st,
    get (members (room_or_new (fst (on_join 10 "B" "R" None s)) "R")) "B" = Some st /\
    In ("B", m_joined "B" (role st)
               (peers_of (members (room_or_new (fst (on_join 10 "B" "R" None s)) "R")) "B"))
       (snd (on_join 10 "B" "R" None s)) /\
    (forall y v, In (y, v) (peers_of (members (room_or_new (fst (on_join 10 "B" "R" None s)) "R")) "B") <->
                 y <> "B" /\ In (y, v) (members (room_or_new s "R"))) /\
    (forall y, y <> "B" -> has (members (room_or_new s "R")) y = true ->
               has (sockets s) y = true -> In (y, m_peer_joined "B" st) (snd (on_join 10 "B" "R" None s))).
Proof.
  intros s.
  assert (Hr : reachable 10 all_events s)
    by (apply run_reachable; [constructor|vm_compute; reflexivity]).
  assert (H1 : size (members (room_or_new s "R")) < 10) by (vm_compute; lia).
  assert (H2 : locked (room_or_new s "R") = false \/ size (members (room_or_new s "R")) = 0)
    by (vm_compute; left; reflexivity).
  split; [exact Hr|]. split; [exact H1|]. split; [exact H2|]. split; [reflexivity|].
  exact (join_notifies 10 all_events s "B" "R" None _ _ Hr H1 H2 (surjective_pairing _)).
Defined.

(** X10: in a reachable state, an admit by the Host of a room for a
    connected session waiting in it makes that session a guest member under
    its waiting name and removes it from the waiting list; the session is
    answered with [joined] whose peers are exactly the other entries, every
    other connected member receives [peer-joined], and every connected
    member, the admitted one included, receives the new waiting list. *)
Theorem admit_notifies MAX ok s self r id room wname s' out :
  reachable MAX ok s ->
  get (rooms s) r = Some room -> caller_is_host room self = true ->
  get (waiting room) id = Some wname -> has (sockets s) id = true ->
  on_admit self r id s = (s', out) ->
  get (members (room_or_new s' r)) id = Some (fresh_state wname guest) /\
  has (waiting (room_or_new s' r)) id = false /\
  (forall y v, In (y, v) (peers_of (members (room_or_new s' r)) id) <->
               y <> id /\ In (y, v) (members room)) /\
  In (id, m_joined id guest (peers_of (members (room_or_new s' r)) id)) out /\
  (forall y, y <> id -> has (members room) y = true -> has (sockets s) y = true ->
             In (y, m_peer_joined id (fresh_state wname guest)) out) /\
  (forall y, has (members (room_or_new s' r)) y = true -> has (sockets s) y = true ->
             In (y, m_waiting_list (waiting (room_or_new s' r))) out).
Proof.
  intros Hr G Hh Hw Hs E. pose proof (reachable_members_joined _ _ _ Hr) as HJ.
  unfold on_admit in E. rewrite G, Hh, Hw in E. cbn [negb] in E.
  destruct (get (sockets s) id) as [rs|] eqn:Gs;
    [|unfold has in Hs; rewrite Gs in Hs; discriminate].
  injection E as <- <-. rewrite room_or_new_set. cbn [members waiting].
  split; [apply get_set_same|]. split.
  { rewrite has_delete, String.eqb_refl. reflexivity. }
  split; [intros y v; apply In_peers_of_set|]. split; [left; reflexivity|]. split.
  - intros y Hy Hm Hsy. right. apply in_or_app. left.
    apply socket_to_In; [|exact Hy].
    apply joined_sock_join_mono. exact (HJ r room y G Hm Hsy).
  - intros y Hm Hsy. right. apply in_or_app. right. apply io_to_In.
    rewrite has_set in Hm. destruct (String.eqb_spec id y) as [E|Hne].
    + subst y. apply joined_sock_join_self. exact Hs.
    + apply joined_sock_join_mono. exact (HJ r room y G Hm Hsy).
Qed.

Lemma admit_notifies_witness :
  let s := fst (run 10 trace_queued init) in
  let room := room_or_new s "R" in
  reachable 10 all_events s /\ get (rooms s) "R" = Some room /\
  caller_is_host room "A" = true /\ get (waiting room) "B" = Some "Guest-B" /\
  has (sockets s) "B" = true /\
  get (members (room_or_new (fst (on_admit "A" "R" "B" s)) "R")) "B"
    = Some (fresh_state "Guest-B" guest).
Proof.
  intros s room.
  assert (Hr : reachable 10 all_events s)
    by (apply run_reachable; [constructor|vm_compute; reflexivity]).
  assert (G : get (rooms s) "R" = Some room) by (vm_compute; reflexivity).
  assert (Hh : caller_is_host room "A" = true) by (vm_compute; reflexivity).
  assert (Hw : get (waiting room) "B" = Some "Guest-B") by (vm_compute; reflexivity).
  assert (Hs : has (sockets s) "B" = true) by (vm_compute; reflexivity).
  split; [exact Hr|]. split; [exact G|]. split; [exact Hh|]. split; [exact Hw|].
  split; [exact Hs|].
  exact (proj1 (admit_notifies 10 all_events s "A" "R" "B" room "Guest-B" _ _
                  Hr G Hh Hw Hs (surjective_pairing _))).
Defined.

(** X11: a deny by the Host of a room for a session waiting in it removes
    only that entry from the waiting list; members, lock and the other
    rooms stay, no session's socket.io rooms change, and every connected
    member of the room receives the new waiting list. A deny for a session
    that is not waiting changes nothing and sends nothing. *)
Theorem deny_removes_waiting MAX ok s self r id room :
  reachable MAX ok s ->
  get (rooms s) r = Some room -> caller_is_host room self = true ->
  (has (waiting room) id = false -> on_deny self r id s = (s, [])) /\
  (has (waiting room) id = true ->
   members (room_or_new (fst (on_deny self r id s)) r) = members room /\
   locked (room_or_new (fst (on_deny self r id s)) r) = locked room /\
   (forall y, get (waiting (room_or_new (fst (on_deny self r id s)) r)) y =
              if String.eqb id y then None else get (waiting room) y) /\
   (forall r', r' <> r -> get (rooms (fst (on_deny self r id s))) r' = get (rooms s) r') /\
   sockets (fst (on_deny self r id s)) = sockets s /\
   (forall y, has (members room) y = true -> has (sockets s) y = true ->
      In (y, m_waiting_list (delete (waiting room) id)) (snd (on_deny self r id s)))).
Proof.
  intros Hr G Hh. pose proof (reachable_members_joined _ _ _ Hr) as HJ.
  unfold on_deny. rewrite G, Hh. cbn [negb]. split.
  - intros Hw. rewrite Hw. reflexivity.
  - intros Hw. rewrite Hw. cbn [fst snd]. rewrite room_or_new_set.
    cbn [members locked waiting with_waiting rooms sockets].
    split; [reflexivity|]. split; [reflexivity|]. split.
    + intros y. apply get_delete.
    + split; [|split; [reflexivity|]].
      * intros r' Hr'. rewrite get_set.
        destruct (String.eqb_spec r r'); [congruence|reflexivity].
      * intros y Hm Hs. apply in_or_app. left. apply io_to_In.
        exact (HJ r room y G Hm Hs).
Qed.

Lemma deny_removes_waiting_witness :
  let s := fst (run 10 trace_queued init) in
  let room := room_or_new s "R" in
  reachable 10 all_events s /\ get (rooms s) "R" = Some room /\
  caller_is_host room "A" = true /\ has (waiting room) "B" = true /\
  members (room_or_new (fst (on_deny "A" "R" "B" s)) "R") = members room.
Proof.
  intros s room.
  assert (Hr : reachable 10 all_events s)
    by (apply run_reachable; [constructor|vm_compute; reflexivity]).
  assert (G : get (rooms s) "R" = Some room) by (vm_compute; reflexivity).
  assert (Hh : caller_is_host room "A" = true) by (vm_compute; reflexivity).
  assert (Hw : has (waiting room) "B" = true) by (vm_compute; reflexivity).
  split; [exact Hr|]. split; [exact G|]. split; [exact Hh|]. split; [exact Hw|].
  exact (proj1 (proj2 (deny_removes_waiting 10 all_events s "A" "R" "B" room Hr G Hh) Hw)).
Defined.

(** X12: when the only member of a room leaves, the room is removed from
    the table (with its lock and waiting list); the next join of that room
    then creates it afresh, unlocked and with no waiting list, makes the
    joiner its Host and answers it with [joined] and no peers. *)
Theorem last_member_leave_resets MAX s x r room st y nm s2 out :
  get (rooms s) r = Some room -> members room = [(x, st)] -> 0 < MAX ->
  on_join MAX y r nm (fst (on_leave x r s)) = (s2, out) ->
  get (rooms (fst (on_leave x r s))) r = None /\
  get (rooms s2) r =
    Some {| members := [(y, fresh_state (safe_name nm (String.append "Guest-" (substring 0 6 y))) host)];
            locked := false; waiting := [] |} /\
  In (y, m_joined y host []) out.
Proof.
  intros G Hm HM E.
  assert (Hl : get (rooms (fst (on_leave x r s))) r = None).
  { unfold on_leave. cbn [fst rooms]. unfold drop_member. rewrite G, Hm.
    assert (D : delete [(x, st)] x = []).
    { unfold delete. cbn [filter fst]. rewrite String.eqb_refl. reflexivity. }
    rewrite D. change (Nat.eqb (size (@nil (string * MemberState))) 0) with true.
    cbv beta iota. rewrite get_delete, String.eqb_refl. reflexivity. }
  split; [exact Hl|].
  remember (fst (on_leave x r s)) as s1 eqn:Hs1.
  assert (Hn : room_or_new s1 r = new_room) by (unfold room_or_new; rewrite Hl; reflexivity).
  unfold on_join in E. rewrite Hn in E.
  destruct MAX as [|M]; [lia|]. cbn in E. injection E as <- <-. split.
  - cbn [rooms]. rewrite get_set_same. reflexivity.
  - left. unfold peers_of. cbn. rewrite String.eqb_refl. reflexivity.
Qed.

Lemma last_member_leave_resets_witness :
  let s := fst (run 10 [a_connect "A"; a_connect "B"; a_event "A" (ev_join "R" None);
                        a_event "A" (ev_lock_room "R" true)] init) in
  get (rooms s) "R" = Some (room_or_new s "R") /\
  members (room_or_new s "R") = [("A", fresh_state "Guest-A" host)] /\ 0 < 10 /\
  get (rooms (fst (on_leave "A" "R" s))) "R" = None.
Proof.
  intros s.
  assert (G : get (rooms s) "R" = Some (room_or_new s "R")) by (vm_compute; reflexivity).
  assert (Hm : members (room_or_new s "R") = [("A", fresh_state "Guest-A" host)])
    by (vm_compute; reflexivity).
  assert (HM : 0 < 10) by lia.
  split; [exact G|]. split; [exact Hm|]. split; [exact HM|].
  exact (proj1 (last_member_leave_resets 10 s "A" "R" _ _ "B" None _ _ G Hm HM
                  (surjective_pairing _))).
Defined.

(** ** Earlier variants *)

Lemma size_set {V : Type} (m : JsMap.t V) k v :
  size (set m k v) = if has m k then size m else S (size m).
Proof.
  unfold size, has. induction m as [|[k0 v0] m IH]; simpl; [reflexivity|].
  destruct (String.eqb k0 k); simpl; [reflexivity|].
  rewrite IH. destruct (get m k); reflexivity.
Qed.

Lemma has_size_pos {V : Type} (m : JsMap.t V) k : has m k = true -> 0 < size m.
Proof. destruct m; [discriminate|]. intros _. unfold size. simpl. lia. Qed.

Lemma size_delete_le {V : Type} (m : JsMap.t V) k : size (delete m k) <= size m.
Proof.
  unfold size, delete. induction m as [|kv m IH]; simpl; [lia|].
  destruct (negb _); simpl; lia.
Qed.

Lemma jsset_size_add m x :
  JsSet.size (JsSet.add m x) = if JsSet.has m x then JsSet.size m else S (JsSet.size m).
Proof.
  unfold JsSet.add. destruct (JsSet.has m x); [reflexivity|].
  unfold JsSet.size. rewrite length_app. simpl. lia.
Qed.

Lemma jsset_size_delete_le m x : JsSet.size (JsSet.delete m x) <= JsSet.size m.
Proof.
  unfold JsSet.size, JsSet.delete. induction m as [|y m IH]; simpl; [lia|].
  destruct (negb _); simpl; lia.
Qed.

Lemma jsset_has_pos m x : JsSet.has m x = true -> 0 < JsSet.size m.
Proof. destruct m; [discriminate|]. intros _. unfold JsSet.size. simpl. lia. Qed.

Lemma V1_bounded_set cap rs r room' :
  V1_bounded cap rs -> 0 < size (V1.members room') <= cap ->
  V1_bounded cap (set rs r room').
Proof.
  intros H Hr r' room. rewrite get_set. destruct (String.eqb r r').
  - intros E. injection E as <-. exact Hr.
  - apply H.
Qed.

Lemma V1_bounded_delete cap rs r : V1_bounded cap rs -> V1_bounded cap (delete rs r).
Proof.
  intros H r' room. rewrite get_delete. destruct (String.eqb r r'); [discriminate|apply H].
Qed.

Lemma V1_bounded_drop cap x r rs :
  V1_bounded cap rs -> V1_bounded cap (V1.drop_member x r rs).
Proof.
  intros H. unfold V1.drop_member. destruct (get rs r) as [room|] eqn:G; [|exact H].
  destruct (Nat.eqb (size (delete (V1.members room) x)) 0) eqn:Z.
  - apply V1_bounded_delete, H.
  - apply V1_bounded_set; [exact H|]. simpl.
    apply Nat.eqb_neq in Z. pose proof (size_delete_le (V1.members room) x).
    pose proof (H r room G). lia.
Qed.

Lemma V1_bounded_disc cap x sk names : forall rs,
  V1_bounded cap rs -> V1_bounded cap (fst (V1.disc_rooms x sk names rs)).
Proof.
  induction names as [|n ns IH]; intros rs H; simpl; [exact H|].
  destruct (String.eqb n x); [apply IH, H|].
  specialize (IH (V1.drop_member x n rs) (V1_bounded_drop cap x n rs H)).
  destruct (V1.disc_rooms x sk ns (V1.drop_member x n rs)). exact IH.
Qed.

(** X13: in every reachable state of the first variant, each room in the
    table has at least one member and at most [MAX_ROOM_SIZE]: a join of a
    full room is refused, a rename or state update only overwrites an
    existing entry, and a room whose last member leaves or disconnects is
    deleted. *)
Theorem v1_room_size_bounded MAX s :
  V1.reachable MAX s ->
  forall r room, get (V1.rooms s) r = Some room -> 0 < size (V1.members room) <= MAX.
Proof.
  intros Hr. change (V1_bounded MAX (V1.rooms s)).
  induction Hr as [|s s' Hr IH Hs].
  - intros r room E. discriminate.
  - destruct Hs as [s id _|s self ev _]; [exact IH|].
    destruct ev as [r nm|p|r| |r p|r nm|r e to]; simpl.
    + unfold V1.on_join.
      destruct (Nat.leb MAX (size (V1.members (V1.room_or_new s r)))) eqn:L; [exact IH|].
      apply V1_bounded_set; [exact IH|]. simpl. rewrite size_set.
      apply Nat.leb_gt in L. destruct (has _ _) eqn:E; [apply has_size_pos in E|]; lia.
    + unfold V1.on_signal. destruct (get (V1.rooms s) (sp_roomId p)); [|exact IH].
      destruct (negb _); exact IH.
    + apply V1_bounded_drop, IH.
    + unfold V1.on_disconnecting.
      pose proof (V1_bounded_disc MAX self (V1.sockets s)
                    (match get (V1.sockets s) self with Some rs => rs | None => [] end)
                    (V1.rooms s) IH) as D.
      destruct (V1.disc_rooms _ _ _ _). exact D.
    + unfold V1.on_state_update. destruct (get (V1.rooms s) r) as [room|] eqn:G; [|exact IH].
      destruct (get (V1.members room) self) as [cur|] eqn:Gm; [|exact IH].
      apply V1_bounded_set; [exact IH|]. simpl. rewrite size_set.
      unfold has. rewrite Gm. exact (IH r room G).
    + unfold V1.on_rename. destruct (get (V1.rooms s) r) as [room|] eqn:G; [|exact IH].
      destruct (get (V1.members room) self) as [cur|] eqn:Gm; [|exact IH].
      apply V1_bounded_set; [exact IH|]. simpl. rewrite size_set.
      unfold has. rewrite Gm. exact (IH r room G).
    + unfold V1.on_reaction. destruct (get (V1.rooms s) r), e; try exact IH.
      destruct (String.eqb _ _); exact IH.
Qed.

Lemma set_bounded_set cap rs r room' :
  set_bounded cap rs -> 0 < JsSet.size (SetRooms.members room') <= cap ->
  set_bounded cap (set rs r room').
Proof.
  intros H Hr r' room. rewrite get_set. destruct (String.eqb r r').
  - intros E. injection E as <-. exact Hr.
  - apply H.
Qed.

Lemma set_bounded_drop cap x r rs :
  set_bounded cap rs -> set_bounded cap (SetRooms.drop_member x r rs).
Proof.
  intros H. unfold SetRooms.drop_member. destruct (get rs r) as [room|] eqn:G; [|exact H].
  destruct (Nat.eqb (JsSet.size (JsSet.delete (SetRooms.members room) x)) 0) eqn:Z.
  - intros r' room'. rewrite get_delete. destruct (String.eqb r r'); [discriminate|apply H].
  - apply set_bounded_set; [exact H|]. simpl.
    apply Nat.eqb_neq in Z. pose proof (jsset_size_delete_le (SetRooms.members room) x).
    pose proof (H r room G). lia.
Qed.

Lemma set_bounded_disc {M : Type} cap (left : M) x sk names : forall rs,
  set_bounded cap rs -> set_bounded cap (fst (SetRooms.disc_rooms left x sk names rs)).
Proof.
  induction names as [|n ns IH]; intros rs H; simpl; [exact H|].
  destruct (String.eqb n x); [apply IH, H|].
  specialize (IH (SetRooms.drop_member x n rs) (set_bounded_drop cap x n rs H)).
  destruct (SetRooms.disc_rooms left x sk ns (SetRooms.drop_member x n rs)). exact IH.
Qed.

Lemma set_bounded_add cap rs r m x :
  set_bounded cap rs -> JsSet.size m < cap ->
  set_bounded cap (set rs r {| SetRooms.members := JsSet.add m x |}).
Proof.
  intros H L. apply set_bounded_set; [exact H|]. simpl. rewrite jsset_size_add.
  destruct (JsSet.has m x) eqn:E; [apply jsset_has_pos in E|]; lia.
Qed.

(** X14: in every reachable state of the two-party variant, each room in
    the table has one or two members. *)
Theorem v2_room_size_bounded s :
  V2.reachable s ->
  forall r room, get (SetRooms.rooms s) r = Some room ->
  0 < JsSet.size (SetRooms.members room) <= 2.
Proof.
  intros Hr. change (set_bounded 2 (SetRooms.rooms s)).
  induction Hr as [|s s' Hr IH Hs].
  - intros r room E. discriminate.
  - destruct Hs as [s id _|s self ev _]; [exact IH|].
    destruct ev as [r|p|r|]; simpl.
    + unfold V2.on_join.
      destruct (Nat.leb 2 (JsSet.size (SetRooms.members (SetRooms.room_or_new s r)))) eqn:L;
        [exact IH|].
      apply set_bounded_add; [exact IH|]. apply Nat.leb_gt in L. exact L.
    + exact IH.
    + apply set_bounded_drop, IH.
    + unfold V2.on_disconnecting.
      pose proof (set_bounded_disc 2 (V2.m_signal V2.sd_peer_left) self (SetRooms.sockets s)
                    (match get (SetRooms.sockets s) self with Some rs => rs | None => [] end)
                    (SetRooms.rooms s) IH) as D.
      destruct (SetRooms.disc_rooms _ _ _ _ _). exact D.
Qed.

(** X16: in every reachable state of the member-id variant, each room in
    the table has at least one member and at most [MAX_ROOM_SIZE]. *)
Theorem v3_room_size_bounded MAX s :
  V3.reachable MAX s ->
  forall r room, get (SetRooms.rooms s) r = Some room ->
  0 < JsSet.size (SetRooms.members room) <= MAX.
Proof.
  intros Hr. change (set_bounded MAX (SetRooms.rooms s)).
  induction Hr as [|s s' Hr IH Hs].
  - intros r room E. discriminate.
  - destruct Hs as [s id _|s self ev _]; [exact IH|].
    destruct ev as [r|p|r|]; simpl.
    + unfold V3.on_join.
      destruct (Nat.leb MAX (JsSet.size (SetRooms.members (SetRooms.room_or_new s r)))) eqn:L;
        [exact IH|].
      apply set_bounded_add; [exact IH|]. apply Nat.leb_gt in L. exact L.
    + unfold V3.on_signal. destruct (get (SetRooms.rooms s) (sp_roomId p)); [|exact IH].
      destruct (negb _); exact IH.
    + apply set_bounded_drop, IH.
    + unfold V3.on_disconnecting.
      pose proof (set_bounded_disc MAX (V3.m_peer_left self) self (SetRooms.sockets s)
                    (match get (SetRooms.sockets s) self with Some rs => rs | None => [] end)
                    (SetRooms.rooms s) IH) as D.
      destruct (SetRooms.disc_rooms _ _ _ _ _). exact D.
Qed.

Lemma v1_room_size_bounded_witness :
  let s := fst (V1.handle 10 "A" (V1.ev_join "R" None) (V1.connect V1.init "A")) in
  V1.reachable 10 s /\ get (V1.rooms s) "R" = Some (V1.room_or_new s "R") /\
  0 < size (V1.members (V1.room_or_new s "R")) <= 10.
Proof.
  intros s.
  assert (Hr : V1.reachable 10 s).
  { eapply V1.reach_step; [eapply V1.reach_step; [apply V1.reach_init|]|].
    - apply V1.step_connect. vm_compute. reflexivity.
    - apply V1.step_event. vm_compute. reflexivity. }
  assert (G : get (V1.rooms s) "R" = Some (V1.room_or_new s "R")) by (vm_compute; reflexivity).
  split; [exact Hr|]. split; [exact G|].
  exact (v1_room_size_bounded 10 s Hr "R" _ G).
Defined.

Lemma v2_room_size_bounded_witness :
  let s := fst (V2.handle "B" (V2.ev_join "R")
             (fst (V2.handle "A" (V2.ev_join "R")
                (SetRooms.connect (SetRooms.connect SetRooms.init "A") "B")))) in
  V2.reachable s /\ get (SetRooms.rooms s) "R" = Some (SetRooms.room_or_new s "R") /\
  0 < JsSet.size (SetRooms.members (SetRooms.room_or_new s "R")) <= 2.
Proof.
  intros s.
  assert (Hr : V2.reachable s).
  { assert (R1 : V2.reachable (SetRooms.connect SetRooms.init "A")).
    { eapply V2.reach_step; [apply V2.reach_init|].
      apply V2.step_connect. vm_compute. reflexivity. }
    assert (R2 : V2.reachable (SetRooms.connect (SetRooms.connect SetRooms.init "A") "B")).
    { eapply V2.reach_step; [exact R1|]. apply V2.step_connect. vm_compute. reflexivity. }
    assert (R3 : V2.reachable (fst (V2.handle "A" (V2.ev_join "R")
                   (SetRooms.connect (SetRooms.connect SetRooms.init "A") "B")))).
    { eapply V2.reach_step; [exact R2|]. apply V2.step_event. vm_compute. reflexivity. }
    eapply V2.reach_step; [exact R3|]. apply V2.step_event. vm_compute. reflexivity. }
  assert (G : get (SetRooms.rooms s) "R" = Some (SetRooms.room_or_new s "R"))
    by (vm_compute; reflexivity).
  split; [exact Hr|]. split; [exact G|].
  exact (v2_room_size_bounded s Hr "R" _ G).
Defined.

Lemma v3_room_size_bounded_witness :
  let s := fst (V3.handle 10 "A" (V3.ev_join "R") (SetRooms.connect SetRooms.init "A")) in
  V3.reachable 10 s /\ get (SetRooms.rooms s) "R" = Some (SetRooms.room_or_new s "R") /\
  0 < JsSet.size (SetRooms.members (SetRooms.room_or_new s "R")) <= 10.
Proof.
  intros s.
  assert (Hr : V3.reachable 10 s).
  { eapply V3.reach_step; [eapply V3.reach_step; [apply V3.reach_init|]|].
    - apply V3.step_connect. vm_compute. reflexivity.
    - apply V3.step_event. vm_compute. reflexivity. }
  assert (G : get (SetRooms.rooms s) "R" = Some (SetRooms.room_or_new s "R"))
    by (vm_compute; reflexivity).
  split; [exact Hr|]. split; [exact G|].
  exact (v3_room_size_bounded 10 s Hr "R" _ G).
Defined.

(** X17: in a reachable state, a lock-room by the Host of a room sets the
    room's lock to the given value and keeps its members, its waiting list,
    the other rooms and every session's socket.io rooms; every connected
    member of the room, the Host included, receives the new lock state. *)
Theorem lock_room_by_host MAX ok s self r lk room :
  reachable MAX ok s ->
  get (rooms s) r = Some room -> caller_is_host room self = true ->
  locked (room_or_new (fst (on_lock_room self r lk s)) r) = lk /\
  members (room_or_new (fst (on_lock_room self r lk s)) r) = members room /\
  waiting (room_or_new (fst (on_lock_room self r lk s)) r) = waiting room /\
  (forall r', r' <> r -> get (rooms (fst (on_lock_room self r lk s))) r' = get (rooms s) r') /\
  sockets (fst (on_lock_room self r lk s)) = sockets s /\
  (forall y, has (members room) y = true -> has (sockets s) y = true ->
     In (y, m_lock_state lk) (snd (on_lock_room self r lk s))).
Proof.
  intros Hr G Hh. pose proof (reachable_members_joined _ _ _ Hr) as HJ.
  unfold on_lock_room. rewrite G, Hh. cbn [negb fst snd]. rewrite room_or_new_set.
  split; [reflexivity|]. split; [reflexivity|]. split; [reflexivity|]. split.
  - intros r' Hr'. cbn [rooms]. rewrite get_set.
    destruct (String.eqb_spec r r'); [congruence|reflexivity].
  - split; [reflexivity|]. intros y Hm Hs. apply io_to_In. exact (HJ r room y G Hm Hs).
Qed.

Lemma lock_room_by_host_witness :
  let s := fst (run 10 two_members init) in
  let room := room_or_new s "R" in
  reachable 10 all_events s /\ get (rooms s) "R" = Some room /\
  caller_is_host room "A" = true /\
  locked (room_or_new (fst (on_lock_room "A" "R" true s)) "R") = true.
Proof.
  intros s room.
  assert (Hr : reachable 10 all_events s)
    by (apply run_reachable; [constructor|vm_compute; reflexivity]).
  assert (G : get (rooms s) "R" = Some room) by (vm_compute; reflexivity).
  assert (Hh : caller_is_host room "A" = true) by (vm_compute; reflexivity).
  split; [exact Hr|]. split; [exact G|]. split; [exact Hh|].
  exact (proj1 (lock_room_by_host 10 all_events s "A" "R" true room Hr G Hh)).
Defined.
